(** * gempyor.model_info: the [ModelInfo] run descriptor

    A shallow embedding of [gempyor/model_info.py]: the constructor
    [ModelInfo.__init__] and the file-naming and read/write helpers, with the
    properties stated about them.

    Python exceptions are values of [exn]; a computation that may raise and
    that logs, prints or touches the file system lives in the monad [M]. *)

From Stdlib Require Import ZArith String Ascii List Bool Lia.
From Stdlib Require Import PrimFloat Uint63 DecimalString DecimalZ.
Import ListNotations.

Local Open Scope string_scope.
Local Open Scope Z_scope.

#[local] Set Warnings "-register-all".

(** ** Python values and exceptions *)

(** The exceptions that [model_info.py] raises itself ([ValueError]), that the
    interpreter raises on a missing attribute ([AttributeError]) or a bad
    conversion ([TypeError]), that the configuration library raises when a view
    does not resolve ([NotFoundError]) or is not a mapping ([ConfigTypeError]),
    and any other exception of a collaborator ([External class message]). *)
Inductive exn : Type :=
| ValueError (msg : string)
| AttributeError (msg : string)
| TypeError (msg : string)
| NotFoundError
| ConfigTypeError
| External (cls msg : string).

(** Scalar Python objects: what a leaf of the configuration holds, what [eval]
    returns, and what the [dt] argument is. *)
Inductive scalar : Type :=
| PyNone
| PyBool (b : bool)
| PyInt (z : Z)
| PyFloat (f : float)
| PyStr (s : string).

(** A configuration value: a scalar or a mapping.  A mapping is an
    association list, in the order of the source file. *)
Inductive cfg : Type :=
| CScalar (v : scalar)
| CDict (items : list (string * cfg)).

(** A view on the configuration either resolves to a value or does not. *)
Inductive view : Type :=
| Missing
| Found (c : cfg).

(** A configuration argument of the constructor: [None] or a view. *)
Inductive config_arg : Type :=
| ArgNone
| ArgView (v : view).

Definition result (A : Type) : Type := (exn + A)%type.

(** ** Effects *)

Inductive event : Type :=
| LogInfo (msg : string)      (* logging.info *)
| Print (msg : string)        (* print *)
| Makedirs (path : string).   (* os.makedirs(path, exist_ok=True) *)

(** The part of the outside world the constructor changes: what was logged,
    printed and created, oldest first, and how often [file_paths.run_id] was
    called. *)
Record world : Type := mkWorld {
  trace : list event;
  run_id_calls : nat
}.

Definition world0 : world := mkWorld [] 0.

Definition M (A : Type) : Type := world -> world * result A.

Definition ret {A} (a : A) : M A := fun w => (w, inr a).
Definition raise {A} (e : exn) : M A := fun w => (w, inl e).
Definition bind {A B} (m : M A) (k : A -> M B) : M B :=
  fun w => match m w with
           | (w', inl e) => (w', inl e)
           | (w', inr a) => k a w'
           end.
Definition lift {A} (r : result A) : M A := fun w => (w, r).
Definition emit (ev : event) : M unit :=
  fun w => (mkWorld (trace w ++ [ev]) (run_id_calls w), inr tt).

Declare Scope py_scope.
Delimit Scope py_scope with py.
Notation "x <- m ;; k" := (bind m (fun x => k))
  (at level 100, m at next level, right associativity) : py_scope.
Notation "m ;;; k" := (bind m (fun _ => k))
  (at level 100, right associativity) : py_scope.
Local Open Scope py_scope.

(** ** The configuration library (confuse views) *)

Fixpoint assoc (k : string) (l : list (string * cfg)) : option cfg :=
  match l with
  | [] => None
  | (k', c) :: l' => if String.eqb k k' then Some c else assoc k l'
  end.

(** [view.exists()] *)
Definition view_exists (v : view) : bool :=
  match v with Missing => false | Found _ => true end.

(** [view.keys()]: the keys of a mapping; a view that does not resolve has
    none; anything else is a [ConfigTypeError]. *)
Definition view_keys (v : view) : result (list string) :=
  match v with
  | Missing => inr []
  | Found (CDict l) => inr (map fst l)
  | Found (CScalar _) => inl ConfigTypeError
  end.

(** [view[key]], resolved at once: every subview the constructor takes is
    resolved by the next call ([keys], [get] or [exists]). *)
Definition view_item (v : view) (k : string) : result view :=
  match v with
  | Missing => inr Missing
  | Found (CDict l) =>
      match assoc k l with Some c => inr (Found c) | None => inr Missing end
  | Found (CScalar _) => inl ConfigTypeError
  end.

(** [view.get()] *)
Definition view_get (v : view) : result cfg :=
  match v with Missing => inl NotFoundError | Found c => inr c end.

(** [key in keys] *)
Definition key_in (k : string) (keys : list string) : bool :=
  existsb (String.eqb k) keys.

(** Truth value of a Python object. *)
Definition scalar_truthy (v : scalar) : bool :=
  match v with
  | PyNone => false
  | PyBool b => b
  | PyInt z => negb (z =? 0)
  | PyFloat f => negb (PrimFloat.eqb f 0%float)
  | PyStr s => negb (String.eqb s "")
  end.

Definition cfg_truthy (c : cfg) : bool :=
  match c with
  | CScalar v => scalar_truthy v
  | CDict l => match l with [] => false | _ => true end
  end.

(** [bool(arg)]: [None] is false; a view is as true as its value, and
    raises [NotFoundError] when it does not resolve. *)
Definition arg_truthy (a : config_arg) : result bool :=
  match a with
  | ArgNone => inr false
  | ArgView Missing => inl NotFoundError
  | ArgView (Found c) => inr (cfg_truthy c)
  end.

Definition arg_is_none (a : config_arg) : bool :=
  match a with ArgNone => true | ArgView _ => false end.

(** ** The environment: interpreter builtins and collaborators

    Everything [model_info.py] calls and does not define.  [eval] and the
    constructors of the collaborators are taken by what they return or
    raise: what the evaluated text or a collaborator may do besides (print,
    touch files) is no part of [world]. *)

(** A [Parameters], [SeedingAndIC] or [Compartments] object is known here by
    the arguments it was constructed from. *)
Record Parameters : Type := mkParameters {
  p_parameter_config : config_arg;
  p_ti : Z;
  p_tf : Z;
  p_subpop_names : list string
}.

Record SeedingAndIC : Type := mkSeedingAndIC {
  s_seeding_config : config_arg;
  s_initial_conditions_config : config_arg
}.

Record Compartments : Type := mkCompartments {
  c_seir_config : config_arg;
  c_compartments_config : view
}.

Record Env : Type := mkEnv {
  (* gempyor.utils.config, the process-wide configuration: a mapping *)
  config : list (string * cfg);
  (* builtins: str() of a float or a mapping, eval(), float() of an int or
     of a string *)
  str_other : cfg -> string;
  py_eval : string -> result scalar;
  float_of_int : Z -> result float;
  float_of_str : string -> result float;
  (* the exception, if any, that a collaborator's constructor raises *)
  Parameters_raises : Parameters -> option exn;
  SeedingAndIC_raises : SeedingAndIC -> option exn;
  Compartments_raises : Compartments -> option exn;
  (* file_paths.run_id(), by the number of earlier calls *)
  run_id : nat -> string;
  (* datetime.datetime.now().strftime("%Y%m%d-%H%M%S") *)
  now_stamp : string;
  (* file_paths.create_dir_name(run_id, prefix, ftype) *)
  create_dir_name : string -> string -> string -> string;
  (* file_paths.create_file_name(run_id, prefix, index, ftype, extension) *)
  create_file_name : string -> string -> Z -> string -> string -> string;
  (* the exception, if any, that os.makedirs(path, exist_ok=True) raises *)
  os_makedirs : string -> option exn;
  (* utils.read_df and utils.write_df *)
  DataFrame : Type;
  read_df : string -> result DataFrame;
  write_df : string -> DataFrame -> option exn
}.

(** [config[key]] on the process-wide configuration. *)
Definition config_item (E : Env) (k : string) : view :=
  match assoc k (config E) with Some c => Found c | None => Missing end.

Definition string_of_Z (z : Z) : string := NilZero.string_of_int (Z.to_int z).

(** [str(x)] *)
Definition py_str (E : Env) (c : cfg) : string :=
  match c with
  | CScalar (PyStr s) => s
  | CScalar PyNone => "None"
  | CScalar (PyBool true) => "True"
  | CScalar (PyBool false) => "False"
  | CScalar (PyInt z) => string_of_Z z
  | _ => str_other E c
  end.

(** [float(x)] *)
Definition py_float (E : Env) (v : scalar) : result float :=
  match v with
  | PyFloat f => inr f
  | PyBool b => inr (if b then 1%float else 0%float)
  | PyInt z => float_of_int E z
  | PyStr s => float_of_str E s
  | PyNone =>
      inl (TypeError
             "float() argument must be a string or a real number, not 'NoneType'")
  end.

(** [x == s] for a string literal [s]. *)
Definition cfg_eq_str (c : cfg) (s : string) : bool :=
  match c with
  | CScalar (PyStr s') => String.eqb s' s
  | _ => false
  end.

Definition is_none (v : scalar) : bool :=
  match v with PyNone => true | _ => false end.

(** [arg.keys()] and [arg[key]] on [self.seir_config]. *)
Definition arg_keys (a : config_arg) : result (list string) :=
  match a with
  | ArgNone => inl (AttributeError "'NoneType' object has no attribute 'keys'")
  | ArgView v => view_keys v
  end.

Definition arg_item (a : config_arg) (k : string) : result view :=
  match a with
  | ArgNone => inl (TypeError "'NoneType' object is not subscriptable")
  | ArgView v => view_item v k
  end.

(** ** The descriptor *)

(** [SubpopulationStructure], as far as the constructor reads it. *)
Record SubpopulationStructure : Type := mkSubpop {
  sp_nsubpops : Z;
  sp_subpop_pop : list Z;
  sp_mobility : list (nat * nat * float);
  sp_subpop_names : list string
}.

(** The keyword arguments of [ModelInfo.__init__].  A date is its day
    number (the proleptic Gregorian ordinal), so that [tf <= ti] is [<=] and
    [(tf - ti).days] is the difference. *)
Record Args : Type := mkArgs {
  a_setup_name : string;
  a_subpop_setup : SubpopulationStructure;
  a_nslots : Z;
  a_ti : Z;
  a_tf : Z;
  a_npi_scenario : option string;
  a_npi_config_seir : config_arg;
  a_seeding_config : config_arg;
  a_initial_conditions_config : config_arg;
  a_parameters_config : config_arg;
  a_seir_config : config_arg;
  a_outcomes_config : config_arg;
  a_outcome_scenario : option string;
  a_interactive : bool;
  a_write_csv : bool;
  a_write_parquet : bool;
  a_dt : scalar;
  a_first_sim_index : Z;
  a_in_run_id : option string;
  a_in_prefix : option string;
  a_out_run_id : option string;
  a_out_prefix : option string;
  a_stoch_traj_flag : bool
}.

(** The defaults of the signature; [{}] is an empty mapping. *)
Definition empty_dict : config_arg := ArgView (Found (CDict [])).

Definition default_args (setup_name : string)
    (subpop_setup : SubpopulationStructure) (nslots ti tf : Z) : Args :=
  mkArgs setup_name subpop_setup nslots ti tf
         None empty_dict empty_dict empty_dict empty_dict ArgNone empty_dict
         None true false false PyNone 1 None None None None false.

(** The attributes of a [ModelInfo] object.  An attribute that some run of
    the constructor leaves unassigned is an [option], [None] when the object
    has no such attribute. *)
Record ModelInfo : Type := mkModelInfo {
  setup_name : string;
  nslots : Z;
  dt : scalar;
  ti : Z;
  tf : Z;
  npi_scenario : option string;
  npi_config_seir : config_arg;
  seeding_config : config_arg;
  initial_conditions_config : config_arg;
  parameters_config : config_arg;
  outcomes_config : config_arg;
  seir_config : config_arg;
  interactive : bool;
  write_csv : bool;
  write_parquet : bool;
  first_sim_index : Z;
  outcome_scenario : option string;
  subpop_struct : SubpopulationStructure;
  n_days : Z;
  nsubpops : Z;
  subpop_pop : list Z;
  mobility : list (nat * nat * float);
  stoch_traj_flag : bool;
  integration_method : option cfg;
  parameters : option Parameters;
  seedingAndIC : option SeedingAndIC;
  compartments : option Compartments;
  npi_config_outcomes : config_arg;
  in_run_id : string;
  out_run_id : string;
  in_prefix : string;
  out_prefix : string;
  timestamp : option string;
  extension : option string
}.

(** ** [ModelInfo.__init__] *)

Definition msg_time : string :=
  "tf (time to finish) is less than or equal to ti (time to start)".

(** Lines 94-100: the aliases and the check of the configured method. *)
Definition resolve_method (E : Env) (got : cfg) : result cfg :=
  let m := got in
  let m := if cfg_eq_str m "best.current" then CScalar (PyStr "rk4.jit") else m in
  let m := if cfg_eq_str m "rk4" then CScalar (PyStr "rk4.jit") else m in
  if negb (cfg_eq_str m "rk4.jit" || cfg_eq_str m "legacy")
  then inl (ValueError ("Unknown integration method " ++ py_str E m ++ "."))
  else inr m.

(** Lines 101-106: the step inside an [integration] block. *)
Definition resolve_dt (E : Env) (integ : view) (dt : scalar) : result scalar :=
  match view_keys integ with
  | inl e => inl e
  | inr ikeys =>
      if key_in "dt" ikeys && is_none dt then
        match view_item integ "dt" with
        | inl e => inl e
        | inr dv =>
            match view_get dv with
            | inl e => inl e
            | inr got =>
                match py_eval E (py_str E got) with
                | inl e => inl e
                | inr x =>
                    match py_float E x with
                    | inl e => inl e
                    | inr f => inr (PyFloat f)
                    end
                end
            end
        end
      else if is_none dt then inr (PyFloat 2%float)
      else inr dt
  end.

Definition msg_default_method : string :=
  "Integration method not provided, assuming type " ++ "rk4.jit".

(** Lines 93-100: the method of an [integration] block, when it has one. *)
Definition block_method (E : Env) (integ : view) : result (option cfg) :=
  match view_keys integ with
  | inl e => inl e
  | inr ikeys =>
      if key_in "method" ikeys then
        match view_item integ "method" with
        | inl e => inl e
        | inr mv =>
            match view_get mv with
            | inl e => inl e
            | inr got =>
                match resolve_method E got with
                | inl e => inl e
                | inr m => inr (Some m)
                end
            end
        end
      else inr None
  end.

(** Lines 112-113: [if self.dt is not None: self.dt = float(self.dt)]. *)
Definition finish_dt (E : Env) (dt : scalar) : result scalar :=
  if negb (is_none dt) then
    match py_float E dt with
    | inl e => inl e
    | inr f => inr (PyFloat f)
    end
  else inr dt.

(** Lines 92-113: the integration method and the time step. *)
Definition integration_setup (E : Env) (seir_config : config_arg) (dt : scalar)
  : M (option cfg * scalar) :=
  keys <- lift (arg_keys seir_config) ;;
  r <- (if key_in "integration" keys then
          integ <- lift (arg_item seir_config "integration") ;;
          method <- lift (block_method E integ) ;;
          dt' <- lift (resolve_dt E integ dt) ;;
          ret (method, dt')
        else
          let dt' := if is_none dt then PyFloat 2%float else dt in
          emit (LogInfo msg_default_method) ;;;
          ret (Some (CScalar (PyStr "rk4.jit")), dt')) ;;
  dt'' <- lift (finish_dt E (snd r)) ;;
  ret (fst r, dt'').

(** A collaborator's constructor, or [os.makedirs], returns or raises. *)
Definition call (o : option exn) : M unit :=
  match o with Some e => raise e | None => ret tt end.

(** [file_paths.run_id()] *)
Definition file_paths_run_id (E : Env) : M string :=
  fun w => (mkWorld (trace w) (S (run_id_calls w)), inr (run_id E (run_id_calls w))).

(** [self.config]: the class has no attribute [config] and no statement of
    the constructor assigns one, so the lookup on the instance raises.  (The
    process-wide configuration is the module's global [config], read by
    [config_item].) *)
Definition self_config : result view :=
  inl (AttributeError "'ModelInfo' object has no attribute 'config'").

(** An optional string inside an f-string. *)
Definition fmt_opt (o : option string) : string :=
  match o with Some s => s | None => "None" end.

(** Lines 116-130: the collaborators of the SEIR branch. *)
Definition seir_collaborators (E : Env) (a : Args) (self_seir_config : config_arg)
  : M (Parameters * SeedingAndIC * option Compartments) :=
  let p := mkParameters (a_parameters_config a) (a_ti a) (a_tf a)
                        (sp_subpop_names (a_subpop_setup a)) in
  call (Parameters_raises E p) ;;;
  let s := mkSeedingAndIC (a_seeding_config a) (a_initial_conditions_config a) in
  call (SeedingAndIC_raises E s) ;;;
  c <- (if view_exists (config_item E "compartments")
           && negb (arg_is_none self_seir_config)
        then
          let c := mkCompartments self_seir_config (config_item E "compartments") in
          call (Compartments_raises E c) ;;;
          ret (Some c)
        else ret None) ;;
  ret (p, s, c).

(** Lines 163-165: one directory per file type. *)
Fixpoint make_dirs (E : Env) (out_run_id out_prefix : string)
    (ftypes : list string) : M unit :=
  match ftypes with
  | [] => ret tt
  | ftype :: rest =>
      let datadir := create_dir_name E out_run_id out_prefix ftype in
      emit (Makedirs datadir) ;;;
      call (os_makedirs E datadir) ;;;
      make_dirs E out_run_id out_prefix rest
  end.

Definition msg_confused : string :=
  "Confused between reading .csv or parquet. Assuming input file is .parquet".

(** Lines 156-172: the time stamp, the directories and the extension. *)
Definition output_setup (E : Env) (a : Args) (out_run_id out_prefix : string)
  : M (option string * option string) :=
  if a_write_csv a || a_write_parquet a then
    let timestamp := now_stamp E in
    let ftypes1 := if view_exists (config_item E "seir")
                   then ["seir"; "spar"; "snpi"] else [] in
    b <- lift (arg_truthy (a_outcomes_config a)) ;;
    let ftypes :=
      (ftypes1 ++ (if b then ["hosp"; "hpar"; "hnpi"] else []))%list in
    make_dirs E out_run_id out_prefix ftypes ;;;
    (if a_write_parquet a && a_write_csv a
     then emit (Print msg_confused) else ret tt) ;;;
    ret (Some timestamp,
         if a_write_parquet a then Some "parquet"
         else if a_write_csv a then Some "csv"
         else None)
  else ret (None, None).

(** Lines 87-88: [self.seir_config], the argument or, when that is [None]
    and the process-wide configuration has a [seir] section, that section. *)
Definition self_seir_config (E : Env) (a : Args) : config_arg :=
  if arg_is_none (a_seir_config a) && view_exists (config_item E "seir")
  then ArgView (config_item E "seir") else a_seir_config a.

(** Line 91: [config["seir"].exists() and (seir_config or parameters_config)] *)
Definition enters_seir (E : Env) (a : Args) : result bool :=
  if view_exists (config_item E "seir") then
    match arg_truthy (a_seir_config a) with
    | inl e => inl e
    | inr true => inr true
    | inr false => arg_truthy (a_parameters_config a)
    end
  else inr false.

Definition ModelInfo_init (E : Env) (a : Args) : M ModelInfo :=
  (* 1. Important global variables *)
  if a_tf a <=? a_ti a then raise (ValueError msg_time) else
  let n_days := (a_tf a - a_ti a) + 1 in
  let self_seir_config := self_seir_config E a in
  (* the integration method and the time step, the collaborators *)
  enter <- lift (enters_seir E a) ;;
  seir <- (if enter : bool then
             md <- integration_setup E self_seir_config (a_dt a) ;;
             psc <- seir_collaborators E a self_seir_config ;;
             let '(p, s, c) := psc in
             ret (fst md, snd md, Some p, Some s, c)
           else ret (None, a_dt a, None, None, None)) ;;
  let '(method, dt, p, s, c) := seir in
  (* 3. Outcomes *)
  b <- lift (arg_truthy (a_outcomes_config a)) ;;
  npi_out <- (if b : bool then
                cfg <- lift self_config ;;
                om <- lift (view_item cfg "outcomes_modifiers") ;;
                if view_exists om then ret (ArgView om) else ret ArgNone
              else ret ArgNone) ;;
  (* 4. Inputs and outputs *)
  in_run_id <- (match a_in_run_id a with
                | None => file_paths_run_id E
                | Some r => ret r
                end) ;;
  out_run_id <- (match a_out_run_id a with
                 | None => file_paths_run_id E
                 | Some r => ret r
                 end) ;;
  let in_prefix :=
    match a_in_prefix a with
    | None => "model_output/" ++ a_setup_name a ++ "/" ++ in_run_id ++ "/"
    | Some x => x
    end in
  let out_prefix :=
    match a_out_prefix a with
    | None => "model_output/" ++ a_setup_name a ++ "/"
              ++ fmt_opt (a_npi_scenario a) ++ "/" ++ out_run_id ++ "/"
    | Some x => x
    end in
  te <- output_setup E a out_run_id out_prefix ;;
  ret (mkModelInfo
         (a_setup_name a) (a_nslots a) dt (a_ti a) (a_tf a)
         (a_npi_scenario a) (a_npi_config_seir a) (a_seeding_config a)
         (a_initial_conditions_config a) (a_parameters_config a)
         (a_outcomes_config a) self_seir_config
         (a_interactive a) (a_write_csv a) (a_write_parquet a)
         (a_first_sim_index a) (a_outcome_scenario a)
         (a_subpop_setup a) n_days
         (sp_nsubpops (a_subpop_setup a)) (sp_subpop_pop (a_subpop_setup a))
         (sp_mobility (a_subpop_setup a)) (a_stoch_traj_flag a)
         method p s c npi_out
         in_run_id out_run_id in_prefix out_prefix
         (fst te) (snd te)).

(** ** File names, reading and writing *)

(** [self.extension] *)
Definition self_extension (s : ModelInfo) : result string :=
  match extension s with
  | Some e => inr e
  | None => inl (AttributeError "'ModelInfo' object has no attribute 'extension'")
  end.

Definition get_filename (E : Env) (s : ModelInfo) (ftype : string) (sim_id : Z)
    (input : bool) (extension_override : string) : result string :=
  match (if negb (String.eqb extension_override "")
         then inr extension_override
         else self_extension s) with
  | inl e => inl e
  | inr extension =>
      let '(run_id, prefix) :=
        if input then (in_run_id s, in_prefix s)
        else (out_run_id s, out_prefix s) in
      inr (create_file_name E run_id prefix
             (sim_id + first_sim_index s - 1) ftype extension)
  end.

Definition get_input_filename (E : Env) (s : ModelInfo) (ftype : string)
    (sim_id : Z) (extension_override : string) : result string :=
  get_filename E s ftype sim_id true extension_override.

Definition get_output_filename (E : Env) (s : ModelInfo) (ftype : string)
    (sim_id : Z) (extension_override : string) : result string :=
  get_filename E s ftype sim_id false extension_override.

Definition read_simID (E : Env) (s : ModelInfo) (ftype : string) (sim_id : Z)
    (input : bool) (extension_override : string) : result (DataFrame E) :=
  match get_filename E s ftype sim_id input extension_override with
  | inl e => inl e
  | inr fname => read_df E fname
  end.

Definition write_simID (E : Env) (s : ModelInfo) (ftype : string) (sim_id : Z)
    (df : DataFrame E) (input : bool) (extension_override : string)
  : result string :=
  match get_filename E s ftype sim_id input extension_override with
  | inl e => inl e
  | inr fname =>
      match write_df E fname df with
      | Some e => inl e
      | None => inr fname
      end
  end.

(** ** The file-name grammar *)

Fixpoint zeros (n : nat) : string :=
  match n with O => "" | S k => String "0" (zeros k) end.

Definition zfill (width : nat) (s : string) : string :=
  zeros (width - String.length s)%nat ++ s.

(** An integer under the format [09d]: nine characters at least, the sign
    first and zeros before the digits. *)
Definition format_09d (z : Z) : string :=
  if z <? 0 then "-" ++ zfill 8 (string_of_Z (- z)) else zfill 9 (string_of_Z z).

(** Modelled from the spec: [file_paths.create_file_name] is not among the
    sources.  The file name is
    [{prefix}{zero-padded 9-digit global index}.{run_id}.{artifact_type}.{extension}],
    where the prefix already ends in [/]. *)
Definition spec_create_file_name (run_id prefix : string) (index : Z)
    (ftype extension : string) : string :=
  prefix ++ format_09d index ++ "." ++ run_id ++ "." ++ ftype ++ "." ++ extension.

(** The file namer of [E] ends every name by the grammar
    [{index:09d}.{run_id}.{ftype}.{extension}], after a directory part that
    does not depend on the index. *)
Definition names_by_grammar (E : Env) : Prop :=
  exists dir : string -> string -> string -> string,
    forall run_id prefix index ftype extension,
      create_file_name E run_id prefix index ftype extension =
      dir run_id prefix ftype ++ format_09d index ++ "." ++ run_id ++ "."
        ++ ftype ++ "." ++ extension.

(** The number a string of decimal digits denotes. *)
Definition decode_index (s : string) : option Z :=
  option_map Z.of_uint (NilZero.uint_of_string s).

(** ** A concrete environment

    An interpreter fragment and collaborators that never raise, to run the
    constructor on concrete configurations.  The fragment covers integer
    literals and ratios of two; on any other text it answers [unsupported],
    which stands for no exception of the interpreter, and it gives no text
    for [str] of a float or of a mapping.  The runs below stay inside the
    fragment. *)
Module Ex.

Definition unsupported {A} : result A :=
  inl (External "Unsupported" "outside the fragment of the interpreter given here").

(** A decimal integer literal without leading zeros. *)
Definition int_literal (s : string) : option Z :=
  match NilZero.uint_of_string s with
  | Some d =>
      if String.eqb (NilZero.string_of_uint d) s then Some (Z.of_uint d) else None
  | None => None
  end.

(** The text before and after the first [/]. *)
Fixpoint split_slash (s : string) : option (string * string) :=
  match s with
  | EmptyString => None
  | String c r =>
      if Ascii.eqb c "/" then Some (EmptyString, r)
      else match split_slash r with
           | Some (l, r') => Some (String c l, r')
           | None => None
           end
  end.

(** [float(z)], exact when [|z| <= 2^53]. *)
Definition float_of_int (z : Z) : result float :=
  if Z.abs z <=? 2 ^ 53 then
    inr (if z <? 0 then PrimFloat.opp (PrimFloat.of_uint63 (Uint63.of_Z (- z)))
         else PrimFloat.of_uint63 (Uint63.of_Z z))
  else unsupported.

(** [eval(s)] for an integer literal, a ratio of two, and a ratio whose
    denominator is missing. *)
Definition eval (s : string) : result scalar :=
  match int_literal s with
  | Some z => inr (PyInt z)
  | None =>
      match split_slash s with
      | Some (l, r) =>
          match int_literal l, int_literal r with
          | Some a, Some b =>
              if b =? 0 then inl (External "ZeroDivisionError" "division by zero")
              else match float_of_int a, float_of_int b with
                   | inr fa, inr fb => inr (PyFloat (PrimFloat.div fa fb))
                   | _, _ => unsupported
                   end
          | Some _, None =>
              if String.eqb r "" then inl (External "SyntaxError" "invalid syntax")
              else unsupported
          | None, _ => unsupported
          end
      | None => unsupported
      end
  end.

(** [float(s)] for an integer literal. *)
Definition float_of_str (s : string) : result float :=
  match int_literal s with
  | Some z => float_of_int z
  | None => unsupported
  end.

Definition env (config : list (string * cfg)) : Env :=
  mkEnv config
        (fun _ => "") eval float_of_int float_of_str
        (fun _ => None) (fun _ => None) (fun _ => None)
        (fun n => "run" ++ string_of_Z (Z.of_nat n))
        "20240101-000000"
        (fun _ prefix ftype => prefix ++ ftype)
        spec_create_file_name
        (fun _ => None)
        (list (list string)) (fun _ => inr []) (fun _ _ => None).

Definition str (s : string) : cfg := CScalar (PyStr s).

(** [seir: {integration: {method: m, dt: d}}], each field optional. *)
Definition seir_section (method dt : option string) : cfg :=
  CDict [("integration",
          CDict ((match method with Some m => [("method", str m)] | None => [] end)
                 ++ (match dt with Some d => [("dt", str d)] | None => [] end))%list);
         ("parameters", CDict [("gamma", str "1/5")])].

(** [seir: {parameters: ...}], without an [integration] block. *)
Definition seir_plain : cfg := CDict [("parameters", CDict [("gamma", str "1/5")])].

Definition subpop : SubpopulationStructure :=
  mkSubpop 2 [1000; 2000] [] ["a"; "b"].

(** The keyword arguments that the examples vary; the others are the
    defaults of the signature, with the run identifier and the prefix of
    the test ([run_id=105], [prefix=""]). *)
Definition args (ti tf : Z) (seir_config outcomes_config : config_arg)
    (write_csv write_parquet : bool) (dt : scalar) (first_sim_index : Z) : Args :=
  mkArgs "minimal" subpop 1 ti tf
         None empty_dict empty_dict empty_dict empty_dict
         seir_config outcomes_config
         None true write_csv write_parquet dt first_sim_index
         (Some "105") (Some "") (Some "105") (Some "")
         false.

Definition seir_arg (method dt : option string) : config_arg :=
  ArgView (Found (seir_section method dt)).

Definition outcomes_arg : config_arg :=
  ArgView (Found (CDict [("method", str "delayframe")])).

(** A process-wide configuration with a [seir] section and nothing else,
    and the arguments that pass this section as [seir_config]. *)
Definition env_seir (method dt : option string) : Env :=
  env [("seir", seir_section method dt)].

Definition args_seir (method dt : option string) (override : scalar) : Args :=
  args 10 20 (seir_arg method dt) empty_dict false false override 1.

(** The same without an [integration] block, between two given dates. *)
Definition env_plain : Env := env [("seir", seir_plain)].

Definition args_plain (ti tf : Z) : Args :=
  args ti tf (ArgView (Found seir_plain)) empty_dict false false PyNone 1.

(** A non-empty outcomes configuration, with and without an
    [outcomes_modifiers] section in the process-wide configuration. *)
Definition env_outcomes (modifiers : bool) : Env :=
  env (("seir", seir_plain) :: ("outcomes", CDict [("method", str "delayframe")])
       :: (if modifiers
           then [("outcomes_modifiers", CDict [("scenarios", str "med")])]
           else [])).

Definition args_outcomes : Args :=
  args 10 20 (ArgView (Found seir_plain)) outcomes_arg false false PyNone 1.

(** Output flags, and the offset of the simulation index. *)
Definition args_write (write_csv write_parquet : bool) (first_sim_index : Z)
  : Args :=
  args 10 20 (ArgView (Found seir_plain)) empty_dict write_csv write_parquet
       PyNone first_sim_index.

(** A process-wide configuration without a [seir] section, under arguments
    that do pass a SEIR configuration. *)
Definition env_empty : Env := env [].

(** A [compartments] section beside the [seir] section. *)
Definition env_compartments : Env :=
  env [("seir", seir_plain);
       ("compartments", CDict [("infection_stage", str "S,E,I,R")])].

(** Neither run identifier nor prefix given. *)
Definition args_generated : Args :=
  mkArgs "minimal" subpop 1 10 20
         (Some "inference") empty_dict empty_dict empty_dict empty_dict
         (ArgView (Found seir_plain)) empty_dict
         None true false true PyNone 1 None None None None false.

(** The environment of [env_plain] with a [Parameters] constructor that
    raises. *)
Definition env_parameters_raise : Env :=
  mkEnv [("seir", seir_plain)]
        (fun _ => "") eval float_of_int float_of_str
        (fun _ => Some (External "KeyError" "gamma")) (fun _ => None)
        (fun _ => None)
        (fun n => "run" ++ string_of_Z (Z.of_nat n))
        "20240101-000000"
        (fun _ prefix ftype => prefix ++ ftype)
        spec_create_file_name
        (fun _ => None)
        (list (list string)) (fun _ => inr []) (fun _ _ => None).

(** One run identifier for both sides, and no prefix given. *)
Definition args_shared_id : Args :=
  mkArgs "minimal" subpop 1 10 20
         (Some "inference") empty_dict empty_dict empty_dict empty_dict
         (ArgView (Found seir_plain)) empty_dict
         None true false false PyNone 1 (Some "105") None (Some "105") None false.

(** No SEIR configuration passed, and the default (empty) parameters
    configuration. *)
Definition args_no_seir_config : Args :=
  args 10 20 ArgNone empty_dict false false PyNone 1.

(** A configured method that is not a string. *)
Definition seir_int_method : cfg :=
  CDict [("integration", CDict [("method", CScalar (PyInt 4))])].

End Ex.



(** The world after the warning of line 168. *)
Definition warned (w : world) : world :=
  mkWorld (trace w ++ [Print msg_confused]) (run_id_calls w).

Definition msg_no_config : string :=
  "'ModelInfo' object has no attribute 'config'".

Definition msg_no_extension : string :=
  "'ModelInfo' object has no attribute 'extension'".

(** ** What the configuration supplies *)

(** The [integration] block of a SEIR configuration, and a field of it. *)
Definition integration_block (sc : config_arg) : option cfg :=
  match sc with
  | ArgView (Found (CDict l)) => assoc "integration" l
  | _ => None
  end.

Definition block_field (k : string) (b : cfg) : option cfg :=
  match b with CDict l => assoc k l | CScalar _ => None end.

Definition configured_method (sc : config_arg) : option cfg :=
  match integration_block sc with
  | Some b => block_field "method" b
  | None => None
  end.

Definition configured_dt (sc : config_arg) : option cfg :=
  match integration_block sc with
  | Some b => block_field "dt" b
  | None => None
  end.

(** ** What a construction leaves behind *)

(** The directories of the SEIR file types under an output identity. *)
Definition seir_dirs (E : Env) (out_run_id out_prefix : string) : list string :=
  map (create_dir_name E out_run_id out_prefix) ["seir"; "spar"; "snpi"].

(** The environment [E] under another [eval]. *)
Definition with_eval (E : Env) (f : string -> result scalar) : Env :=
  mkEnv (config E) (str_other E) f (float_of_int E) (float_of_str E)
        (Parameters_raises E) (SeedingAndIC_raises E) (Compartments_raises E)
        (run_id E) (now_stamp E) (create_dir_name E) (create_file_name E)
        (os_makedirs E) (DataFrame E) (read_df E) (write_df E).

(** The world after the log entry of line 111. *)
Definition logged (w : world) : world :=
  mkWorld (trace w ++ [LogInfo msg_default_method]) (run_id_calls w).

(** The step as the rule of resolution gives it, from the configured [dt]
    (if any) and the [dt] argument: the float of the argument when there is
    one; else the float of what [eval] makes of the text of the configured
    [dt]; else 2.0. *)
Definition expected_step (E : Env) (configured : option cfg) (override : scalar)
  : result scalar :=
  match override with
  | PyNone =>
      match configured with
      | None => inr (PyFloat 2%float)
      | Some v =>
          match py_eval E (py_str E v) with
          | inl e => inl e
          | inr x =>
              match py_float E x with
              | inl e => inl e
              | inr f => inr (PyFloat f)
              end
          end
      end
  | given =>
      match py_float E given with
      | inl e => inl e
      | inr f => inr (PyFloat f)
      end
  end.



(** The number of run identifiers that the constructor has to generate. *)
Definition generated_ids (a : Args) : nat :=
  ((match a_in_run_id a with None => 1 | Some _ => 0 end)
   + (match a_out_run_id a with None => 1 | Some _ => 0 end))%nat.

(** * Properties *)

(** ** The monad *)

Lemma bind_inr {A B} (m : M A) (k : A -> M B) w w' b :
  bind m k w = (w', inr b) ->
  exists a w1, m w = (w1, inr a) /\ k a w1 = (w', inr b).
Proof.
  unfold bind. destruct (m w) as [w1 [e | a]]; intros H.
  - discriminate.
  - exists a, w1. split; [reflexivity | exact H].
Qed.

Lemma lift_inr {A} (r : result A) w w' a :
  lift r w = (w', inr a) -> r = inr a /\ w' = w.
Proof. unfold lift. intros H. inversion H. split; reflexivity. Qed.

Lemma ret_inr {A} (x : A) w w' a :
  ret x w = (w', inr a) -> a = x /\ w' = w.
Proof. unfold ret. intros H. inversion H. split; reflexivity. Qed.

(** Splits a successful run of [x <- m ;; k] into the run of [m] and the run
    of [k]. *)
Tactic Notation "bind_inv" hyp(H) "as" ident(a) ident(w) ident(Hm) :=
  apply bind_inr in H; destruct H as (a & w & Hm & H).

(** ** Keys of a mapping *)

Lemma key_in_assoc k l :
  key_in k (map fst l) = true <-> assoc k l <> None.
Proof.
  unfold key_in. induction l as [| [k' c] l IH]; simpl.
  - split; [discriminate | congruence].
  - destruct (String.eqb k k'); simpl.
    + split; [discriminate | reflexivity].
    + exact IH.
Qed.

Lemma key_in_assoc_false k l :
  key_in k (map fst l) = false <-> assoc k l = None.
Proof.
  destruct (key_in k (map fst l)) eqn:Hk.
  - apply key_in_assoc in Hk. split; [discriminate | congruence].
  - split; [| reflexivity]. intros _.
    destruct (assoc k l) eqn:Ha; [| reflexivity].
    assert (Hn : assoc k l <> None) by congruence.
    apply key_in_assoc in Hn. congruence.
Qed.

(** ** The constructor, step by step *)

Lemma file_paths_run_id_inr E w w' r :
  file_paths_run_id E w = (w', inr r) -> trace w' = trace w.
Proof. unfold file_paths_run_id. intros H. inversion H. reflexivity. Qed.

Lemma opt_run_id_trace E (o : option string) w w' r :
  match o with None => file_paths_run_id E | Some x => ret x end w = (w', inr r) ->
  trace w' = trace w.
Proof.
  destruct o as [x |]; intros H.
  - apply ret_inr in H. destruct H as [_ ->]. reflexivity.
  - eapply file_paths_run_id_inr. exact H.
Qed.

(** A successful construction went through each step of the constructor:
    the dates are in order, no outcomes configuration was true, and the
    attributes are what the steps computed. *)
Lemma init_ok E a w w' s :
  ModelInfo_init E a w = (w', inr s) ->
  a_ti a < a_tf a /\
  ti s = a_ti a /\ tf s = a_tf a /\
  n_days s = a_tf a - a_ti a + 1 /\
  first_sim_index s = a_first_sim_index a /\
  seir_config s = self_seir_config E a /\
  arg_truthy (a_outcomes_config a) = inr false /\
  npi_config_outcomes s = ArgNone /\
  (exists enter w1,
      enters_seir E a = inr enter /\
      (if enter : bool then
         exists md w0 p sd,
           integration_setup E (self_seir_config E a) (a_dt a) w = (w0, inr md) /\
           seir_collaborators E a (self_seir_config E a) w0
             = (w1, inr (p, sd, compartments s)) /\
           integration_method s = fst md /\ dt s = snd md
       else w1 = w /\ integration_method s = None /\ dt s = a_dt a
            /\ compartments s = None) /\
      exists w2,
        trace w2 = trace w1 /\
        output_setup E a (out_run_id s) (out_prefix s) w2
          = (w', inr (timestamp s, extension s))).
Proof.
  unfold ModelInfo_init. intros H.
  destruct (a_tf a <=? a_ti a) eqn:Hle; [discriminate |].
  apply Z.leb_gt in Hle.
  bind_inv H as enter we Henter.
  apply lift_inr in Henter. destruct Henter as [Henter ->].
  bind_inv H as seir w1 Hseir.
  destruct seir as [[[[method dt'] p] sd] c].
  bind_inv H as b wb Hout.
  apply lift_inr in Hout. destruct Hout as [Hout ->].
  bind_inv H as npi wn Hnpi.
  bind_inv H as rin wi Hin.
  bind_inv H as rout wo Hrout.
  bind_inv H as te wt Hte.
  apply ret_inr in H. destruct H as [-> ->]. simpl.
  assert (Hb : b = false /\ npi = ArgNone /\ wn = w1).
  { destruct b.
    - bind_inv Hnpi as c0 wc Hc. apply lift_inr in Hc. destruct Hc as [Hc _].
      discriminate Hc.
    - apply ret_inr in Hnpi. destruct Hnpi as [-> ->]. repeat split. }
  destruct Hb as (-> & -> & ->).
  repeat (split; [first [assumption | reflexivity] |]).
  exists enter, w1. split; [assumption |]. split.
  - destruct enter.
    + bind_inv Hseir as md w0 Hmd. bind_inv Hseir as psc wc Hpsc.
      destruct psc as [[p0 s0] c0].
      apply ret_inr in Hseir. destruct Hseir as [Heq ->]. inversion Heq; subst.
      exists md, w0, p0, s0. repeat split; assumption.
    + apply ret_inr in Hseir. destruct Hseir as [Heq ->]. inversion Heq; subst.
      repeat split; reflexivity.
  - exists wo. split.
    + apply opt_run_id_trace in Hin. apply opt_run_id_trace in Hrout. congruence.
    + destruct te as [t e]. exact Hte.
Qed.

(** ** The integration block *)

Lemma block_method_dict E il :
  block_method E (Found (CDict il)) =
  match assoc "method" il with
  | Some got =>
      match resolve_method E got with
      | inl e => inl e
      | inr m => inr (Some m)
      end
  | None => inr None
  end.
Proof.
  unfold block_method. simpl.
  destruct (assoc "method" il) as [got |] eqn:Ha.
  - assert (Hk : key_in "method" (map fst il) = true)
      by (apply key_in_assoc; congruence).
    rewrite Hk. reflexivity.
  - apply key_in_assoc_false in Ha. rewrite Ha. reflexivity.
Qed.

Lemma resolve_dt_dict E il dt :
  resolve_dt E (Found (CDict il)) dt =
  if is_none dt then
    match assoc "dt" il with
    | Some got =>
        match py_eval E (py_str E got) with
        | inl e => inl e
        | inr x =>
            match py_float E x with
            | inl e => inl e
            | inr f => inr (PyFloat f)
            end
        end
    | None => inr (PyFloat 2%float)
    end
  else inr dt.
Proof.
  unfold resolve_dt. simpl.
  destruct (assoc "dt" il) as [got |] eqn:Ha.
  - assert (Hk : key_in "dt" (map fst il) = true)
      by (apply key_in_assoc; congruence).
    rewrite Hk. simpl. destruct (is_none dt); reflexivity.
  - apply key_in_assoc_false in Ha. rewrite Ha. simpl.
    destruct (is_none dt); reflexivity.
Qed.

(** With an [integration] mapping in the SEIR configuration, the set-up is
    the method of the block, then its step, then the conversion; nothing is
    logged. *)
Lemma integration_setup_block E sc dt w il :
  integration_block sc = Some (CDict il) ->
  integration_setup E sc dt w =
  match block_method E (Found (CDict il)) with
  | inl e => (w, inl e)
  | inr method =>
      match resolve_dt E (Found (CDict il)) dt with
      | inl e => (w, inl e)
      | inr d =>
          match finish_dt E d with
          | inl e => (w, inl e)
          | inr d' => (w, inr (method, d'))
          end
      end
  end.
Proof.
  intros Hb. unfold integration_block in Hb.
  destruct sc as [| [| [v | l]]]; try discriminate.
  assert (Hk : key_in "integration" (map fst l) = true)
    by (apply key_in_assoc; congruence).
  unfold integration_setup, bind, lift, ret. simpl. rewrite Hk, Hb.
  destruct (block_method E (Found (CDict il))) as [e | method]; [reflexivity |].
  destruct (resolve_dt E (Found (CDict il)) dt) as [e | d]; [reflexivity |].
  simpl. destruct (finish_dt E d); reflexivity.
Qed.

(** A successful set-up either read an [integration] mapping, or found no
    such block, took the default method and logged it. *)
Lemma integration_setup_inr E sc dt w w' md :
  integration_setup E sc dt w = (w', inr md) ->
  match integration_block sc with
  | Some b =>
      exists il d, b = CDict il /\ w' = w /\
        block_method E (Found (CDict il)) = inr (fst md) /\
        resolve_dt E (Found (CDict il)) dt = inr d /\
        finish_dt E d = inr (snd md)
  | None =>
      trace w' = (trace w ++ [LogInfo msg_default_method])%list /\
      fst md = Some (CScalar (PyStr "rk4.jit")) /\
      finish_dt E (if is_none dt then PyFloat 2%float else dt) = inr (snd md)
  end.
Proof.
  intros H.
  destruct (integration_block sc) as [b |] eqn:Hb.
  - destruct b as [v | il].
    + exfalso. unfold integration_block in Hb.
      destruct sc as [| [| [v0 | l]]]; try discriminate.
      assert (Hk : key_in "integration" (map fst l) = true)
        by (apply key_in_assoc; congruence).
      unfold integration_setup, bind, lift in H. simpl in H.
      rewrite Hk, Hb in H. simpl in H. discriminate.
    + rewrite (integration_setup_block E sc dt w il Hb) in H.
      destruct (block_method E (Found (CDict il))) as [e | method] eqn:Hbm;
        [discriminate |].
      destruct (resolve_dt E (Found (CDict il)) dt) as [e | d] eqn:Hrd;
        [discriminate |].
      destruct (finish_dt E d) as [e | d'] eqn:Hf; [discriminate |].
      inversion H; subst. exists il, d. simpl. repeat split; assumption.
  - unfold integration_setup in H.
    bind_inv H as keys wk Hkeys. apply lift_inr in Hkeys.
    destruct Hkeys as [Hkeys ->].
    assert (Hk : key_in "integration" keys = false).
    { unfold integration_block in Hb.
      destruct sc as [| [| [v0 | l]]]; simpl in Hkeys; try discriminate;
        inversion Hkeys; subst; try reflexivity.
      apply key_in_assoc_false. exact Hb. }
    rewrite Hk in H.
    bind_inv H as r wr Hr. bind_inv Hr as u wu Hu.
    apply ret_inr in Hr. destruct Hr as [-> ->].
    unfold emit in Hu. inversion Hu; subst. clear Hu.
    bind_inv H as d wd Hd. apply lift_inr in Hd. destruct Hd as [Hd ->].
    apply ret_inr in H. destruct H as [-> ->]. simpl.
    repeat split. exact Hd.
Qed.

(** The step of lines 101-113 is the step of the rule. *)
Lemma step_in_block E il dt :
  match resolve_dt E (Found (CDict il)) dt with
  | inl e => inl e
  | inr d => finish_dt E d
  end = expected_step E (assoc "dt" il) dt.
Proof.
  rewrite resolve_dt_dict. unfold finish_dt, expected_step.
  destruct dt as [| b | z | f | str]; simpl; try reflexivity.
  destruct (assoc "dt" il) as [got |]; [| reflexivity].
  destruct (py_eval E (py_str E got)) as [e | x]; [reflexivity |].
  destruct (py_float E x) as [e | f]; reflexivity.
Qed.

Lemma step_without_block E dt :
  finish_dt E (if is_none dt then PyFloat 2%float else dt)
  = expected_step E None dt.
Proof. destruct dt as [| b | z | f | str]; reflexivity. Qed.

(** The integration set-up, case by case: the keys of the SEIR
    configuration, then its [integration] block (a mapping, something else,
    or none). *)
Lemma integration_setup_eq E sc dt w :
  integration_setup E sc dt w =
  match arg_keys sc with
  | inl e => (w, inl e)
  | inr _ =>
      match integration_block sc with
      | Some (CDict il) =>
          match block_method E (Found (CDict il)) with
          | inl e => (w, inl e)
          | inr method =>
              match expected_step E (assoc "dt" il) dt with
              | inl e => (w, inl e)
              | inr d => (w, inr (method, d))
              end
          end
      | Some (CScalar _) => (w, inl ConfigTypeError)
      | None =>
          match expected_step E None dt with
          | inl e => (logged w, inl e)
          | inr d => (logged w, inr (Some (CScalar (PyStr "rk4.jit")), d))
          end
      end
  end.
Proof.
  destruct (integration_block sc) as [[v | il] |] eqn:Hb.
  - unfold integration_block in Hb.
    destruct sc as [| [| [v0 | l]]]; try discriminate.
    assert (Hk : key_in "integration" (map fst l) = true)
      by (apply key_in_assoc; congruence).
    unfold integration_setup, bind, lift. simpl. rewrite Hk, Hb. reflexivity.
  - rewrite (integration_setup_block E sc dt w il Hb).
    assert (Hkeys : exists keys, arg_keys sc = inr keys).
    { unfold integration_block in Hb.
      destruct sc as [| [| [v0 | l]]]; try discriminate.
      eexists. reflexivity. }
    destruct Hkeys as [keys ->].
    destruct (block_method E (Found (CDict il))) as [e | method]; [reflexivity |].
    rewrite <- step_in_block.
    destruct (resolve_dt E (Found (CDict il)) dt) as [e | d]; [reflexivity |].
    destruct (finish_dt E d); reflexivity.
  - unfold integration_setup.
    destruct (arg_keys sc) as [e | keys] eqn:Hkeys; [reflexivity |].
    assert (Hk : key_in "integration" keys = false).
    { unfold integration_block in Hb.
      destruct sc as [| [| [v0 | l]]]; simpl in Hkeys; try discriminate;
        inversion Hkeys; subst; try reflexivity.
      apply key_in_assoc_false. exact Hb. }
    unfold bind, lift, emit, ret. rewrite Hk. simpl.
    rewrite step_without_block. unfold logged.
    destruct (expected_step E None dt); reflexivity.
Qed.

(** Once the dates are in order and the SEIR branch is entered, a failure of
    the integration set-up is the failure of the constructor. *)
Lemma init_integration_fails E a w w1 e :
  a_ti a < a_tf a ->
  enters_seir E a = inr true ->
  integration_setup E (self_seir_config E a) (a_dt a) w = (w1, inl e) ->
  ModelInfo_init E a w = (w1, inl e).
Proof.
  intros Hlt Henter Hset. unfold ModelInfo_init.
  apply Z.leb_gt in Hlt. rewrite Hlt.
  unfold bind at 1. unfold lift at 1. rewrite Henter.
  unfold bind at 1. unfold bind at 1. rewrite Hset. reflexivity.
Qed.

(** ** The time span *)

(** C3: for every pair of dates with [tf <= ti] the constructor raises the
    [ValueError] of line 61 (the configuration error of the time span) before
    anything else happens: no descriptor is produced and the world is
    untouched. *)
Theorem init_rejects_unordered_dates (E : Env) (a : Args) (w : world) :
  a_tf a <= a_ti a ->
  ModelInfo_init E a w = (w, inl (ValueError msg_time)).
Proof.
  intros Hle. unfold ModelInfo_init.
  apply Z.leb_le in Hle. rewrite Hle. reflexivity.
Qed.

Lemma init_rejects_unordered_dates_witness :
  20 <= 20 /\
  ModelInfo_init Ex.env_plain (Ex.args_plain 20 20) world0
  = (world0, inl (ValueError msg_time)).
Proof.
  split.
  - discriminate.
  - apply init_rejects_unordered_dates. discriminate.
Defined.

(** C4: for every pair of dates with [ti < tf], the descriptor that the
    constructor returns holds the two dates and the day count
    [(tf - ti).days + 1], both ends included. *)
Theorem n_days_inclusive (E : Env) (a : Args) (w w' : world) (s : ModelInfo) :
  a_ti a < a_tf a ->
  ModelInfo_init E a w = (w', inr s) ->
  n_days s = a_tf a - a_ti a + 1 /\ ti s = a_ti a /\ tf s = a_tf a.
Proof.
  intros _ H. apply init_ok in H.
  destruct H as (_ & Hti & Htf & Hn & _). repeat split; assumption.
Qed.

Lemma n_days_inclusive_witness :
  10 < 20 /\
  match ModelInfo_init Ex.env_plain (Ex.args_plain 10 20) world0 with
  | (_, inr s) => n_days s = 20 - 10 + 1 /\ ti s = 10 /\ tf s = 20
  | (_, inl _) => False
  end.
Proof.
  split; [reflexivity |].
  destruct (ModelInfo_init _ _ world0) as [w' [e | s]] eqn:H.
  - vm_compute in H. discriminate H.
  - apply (n_days_inclusive Ex.env_plain (Ex.args_plain 10 20) world0 w' s);
      [reflexivity | exact H].
Defined.

(** ** The collaborators of the SEIR branch *)

(** C2, the claim as stated, fails: with a SEIR configuration, the SEIR
    branch entered and no [compartments] section in the process-wide
    configuration, the constructor returns a descriptor. *)
Lemma compartments_absent_counterexample :
  ~ (forall (E : Env) (a : Args) (w : world),
        view_exists (config_item E "seir") = true ->
        enters_seir E a = inr true ->
        view_exists (config_item E "compartments") = false ->
        exists w' e, ModelInfo_init E a w = (w', inl e)).
Proof.
  intros H.
  destruct (H Ex.env_plain (Ex.args_plain 10 20) world0
              eq_refl eq_refl eq_refl) as (w' & e & Hinit).
  vm_compute in Hinit. discriminate Hinit.
Qed.

(** C2, as the code has it: the [compartments] section is looked up under a
    guard (line 127).  When it is absent the [Compartments] collaborator is
    not constructed and nothing is raised on that account: the collaborators
    step fails only when [Parameters] or [SeedingAndIC] raises, and a
    descriptor that the constructor returns has no [compartments]
    attribute. *)
Theorem compartments_absent_is_skipped (E : Env) (a : Args) (w : world) :
  view_exists (config_item E "compartments") = false ->
  (forall sc,
      let p := mkParameters (a_parameters_config a) (a_ti a) (a_tf a)
                            (sp_subpop_names (a_subpop_setup a)) in
      let sd := mkSeedingAndIC (a_seeding_config a)
                               (a_initial_conditions_config a) in
      seir_collaborators E a sc w =
      match Parameters_raises E p with
      | Some e => (w, inl e)
      | None =>
          match SeedingAndIC_raises E sd with
          | Some e => (w, inl e)
          | None => (w, inr (p, sd, None))
          end
      end) /\
  (forall w' s, ModelInfo_init E a w = (w', inr s) -> compartments s = None).
Proof.
  intros Habs. split.
  - intros sc p sd. unfold seir_collaborators. rewrite Habs. simpl.
    fold p. fold sd. unfold bind, call, raise, ret.
    destruct (Parameters_raises E p); [reflexivity |].
    destruct (SeedingAndIC_raises E sd); reflexivity.
  - intros w' s H. apply init_ok in H.
    destruct H as (_ & _ & _ & _ & _ & _ & _ & _ & enter & w1 & _ & Hseir & _).
    destruct enter.
    + destruct Hseir as (md & w0 & p & sd & _ & Hcol & _).
      unfold seir_collaborators in Hcol. rewrite Habs in Hcol. simpl in Hcol.
      bind_inv Hcol as u1 wu1 H1. bind_inv Hcol as u2 wu2 H2.
      bind_inv Hcol as c wc Hc.
      apply ret_inr in Hc. destruct Hc as [-> ->].
      apply ret_inr in Hcol. destruct Hcol as [Heq _].
      inversion Heq. reflexivity.
    + destruct Hseir as (_ & _ & _ & Hc). exact Hc.
Qed.

Lemma compartments_absent_is_skipped_witness :
  view_exists (config_item Ex.env_plain "compartments") = false /\
  match ModelInfo_init Ex.env_plain (Ex.args_plain 10 20) world0 with
  | (_, inr s) => compartments s = None /\ parameters s <> None
  | (_, inl _) => False
  end.
Proof.
  split; [reflexivity |].
  destruct (ModelInfo_init _ _ world0) as [w' [e | s]] eqn:H.
  - vm_compute in H. discriminate H.
  - split.
    + apply (proj2 (compartments_absent_is_skipped
                      Ex.env_plain (Ex.args_plain 10 20) world0 eq_refl) w' s H).
    + vm_compute in H. inversion H. discriminate.
Defined.

(** ** The integration method *)

Lemma configured_method_inv sc got :
  configured_method sc = Some got ->
  exists il, integration_block sc = Some (CDict il) /\ assoc "method" il = Some got.
Proof.
  unfold configured_method. destruct (integration_block sc) as [[v | il] |];
    simpl; try discriminate.
  intros H. exists il. split; [reflexivity | exact H].
Qed.

Lemma configured_dt_inv sc got :
  configured_dt sc = Some got ->
  exists il, integration_block sc = Some (CDict il) /\ assoc "dt" il = Some got.
Proof.
  unfold configured_dt. destruct (integration_block sc) as [[v | il] |];
    simpl; try discriminate.
  intros H. exists il. split; [reflexivity | exact H].
Qed.

(** What lines 94-100 make of a configured method string. *)
Lemma resolve_method_str E m :
  resolve_method E (CScalar (PyStr m)) =
  if String.eqb m "best.current" || String.eqb m "rk4" || String.eqb m "rk4.jit"
  then inr (CScalar (PyStr "rk4.jit"))
  else if String.eqb m "legacy" then inr (CScalar (PyStr "legacy"))
  else inl (ValueError ("Unknown integration method " ++ m ++ ".")).
Proof.
  unfold resolve_method, cfg_eq_str.
  destruct (String.eqb_spec m "best.current") as [-> | H1]; [reflexivity |].
  destruct (String.eqb_spec m "rk4") as [-> | H2]; [reflexivity |].
  destruct (String.eqb_spec m "rk4.jit") as [-> | H3]; [reflexivity |].
  destruct (String.eqb_spec m "legacy") as [-> | H4]; reflexivity.
Qed.

(** C5, the claim as stated, fails: [legacy] is none of the three strings
    and the constructor accepts it. *)
Lemma legacy_method_counterexample :
  ~ (forall (E : Env) (a : Args) (w : world) (m : string),
        a_ti a < a_tf a ->
        enters_seir E a = inr true ->
        configured_method (self_seir_config E a) = Some (CScalar (PyStr m)) ->
        m <> "best.current" -> m <> "rk4" -> m <> "rk4.jit" ->
        exists w' e, ModelInfo_init E a w = (w', inl e)).
Proof.
  intros H.
  destruct (H (Ex.env_seir (Some "legacy") None)
              (Ex.args_seir (Some "legacy") None PyNone) world0 "legacy"
              eq_refl eq_refl eq_refl)
    as (w' & e & Hinit);
    [intros Hm; discriminate Hm | intros Hm; discriminate Hm
     | intros Hm; discriminate Hm |].
  vm_compute in Hinit. discriminate Hinit.
Qed.

(** C5, as the code has it: resolution of a configured method string [m]
    gives [rk4.jit] for [best.current], [rk4] and [rk4.jit], gives [legacy]
    for [legacy], and for any other [m] raises the [ValueError] whose message
    names [m].  When the SEIR branch runs on a configuration whose method is
    [m], the integration set-up is this resolution followed by the step: the
    accepted strings pass it with the resolved method, which is then the
    method of the descriptor, and any other [m] makes the constructor raise
    that [ValueError] before anything else happens. *)
Theorem method_resolution (E : Env) (m : string) :
  resolve_method E (CScalar (PyStr m)) =
  (if String.eqb m "best.current" || String.eqb m "rk4" || String.eqb m "rk4.jit"
   then inr (CScalar (PyStr "rk4.jit"))
   else if String.eqb m "legacy" then inr (CScalar (PyStr "legacy"))
   else inl (ValueError ("Unknown integration method " ++ m ++ "."))) /\
  forall (a : Args) (w : world),
    a_ti a < a_tf a ->
    enters_seir E a = inr true ->
    configured_method (self_seir_config E a) = Some (CScalar (PyStr m)) ->
    (exists il,
        integration_block (self_seir_config E a) = Some (CDict il) /\
        integration_setup E (self_seir_config E a) (a_dt a) w =
        match resolve_method E (CScalar (PyStr m)) with
        | inl e => (w, inl e)
        | inr c =>
            match expected_step E (assoc "dt" il) (a_dt a) with
            | inl e => (w, inl e)
            | inr d => (w, inr (Some c, d))
            end
        end) /\
    (if String.eqb m "best.current" || String.eqb m "rk4" || String.eqb m "rk4.jit"
     then forall w' s, ModelInfo_init E a w = (w', inr s) ->
                       integration_method s = Some (CScalar (PyStr "rk4.jit"))
     else if String.eqb m "legacy"
     then forall w' s, ModelInfo_init E a w = (w', inr s) ->
                       integration_method s = Some (CScalar (PyStr "legacy"))
     else ModelInfo_init E a w
          = (w, inl (ValueError ("Unknown integration method " ++ m ++ ".")))).
Proof.
  split; [apply resolve_method_str |].
  intros a w Hlt Henter Hm.
  apply configured_method_inv in Hm. destruct Hm as (il & Hb & Hm).
  assert (Hbm := block_method_dict E il). rewrite Hm in Hbm.
  split.
  { exists il. split; [exact Hb |].
    rewrite integration_setup_eq, Hb, Hbm.
    assert (Hkeys : exists keys, arg_keys (self_seir_config E a) = inr keys).
    { unfold integration_block in Hb.
      destruct (self_seir_config E a) as [| [| [v0 | l]]]; try discriminate.
      eexists. reflexivity. }
    destruct Hkeys as [keys ->].
    destruct (resolve_method E (CScalar (PyStr m))); reflexivity. }
  rewrite resolve_method_str in Hbm.
  assert (Hok : forall c w' s,
             block_method E (Found (CDict il)) = inr (Some c) ->
             ModelInfo_init E a w = (w', inr s) ->
             integration_method s = Some c).
  { intros c w' s Hc H. apply init_ok in H.
    destruct H as (_ & _ & _ & _ & _ & _ & _ & _ & enter & w1 & He & Hseir & _).
    rewrite Henter in He. inversion He; subst enter.
    destruct Hseir as (md & w0 & p & sd & Hset & _ & Him & _).
    apply integration_setup_inr in Hset. rewrite Hb in Hset.
    destruct Hset as (il' & d & Heq & _ & Hbm' & _).
    inversion Heq; subst il'. congruence. }
  destruct (String.eqb m "best.current" || String.eqb m "rk4"
            || String.eqb m "rk4.jit").
  - intros w' s. apply Hok. exact Hbm.
  - destruct (String.eqb m "legacy").
    + intros w' s. apply Hok. exact Hbm.
    + apply init_integration_fails; [assumption | assumption |].
      rewrite (integration_setup_block E _ _ w il Hb), Hbm. reflexivity.
Qed.

Lemma method_resolution_witness :
  (resolve_method Ex.env_plain (Ex.str "best.current") = inr (Ex.str "rk4.jit") /\
   resolve_method Ex.env_plain (Ex.str "rk4") = inr (Ex.str "rk4.jit") /\
   resolve_method Ex.env_plain (Ex.str "rk4.jit") = inr (Ex.str "rk4.jit") /\
   resolve_method Ex.env_plain (Ex.str "legacy") = inr (Ex.str "legacy")) /\
  integration_setup (Ex.env_seir (Some "rk4") None) (Ex.seir_arg (Some "rk4") None)
    PyNone world0
  = (world0, inr (Some (Ex.str "rk4.jit"), PyFloat 2%float)) /\
  match ModelInfo_init (Ex.env_seir (Some "rk4") None)
          (Ex.args_seir (Some "rk4") None PyNone) world0 with
  | (_, inr s) => integration_method s = Some (Ex.str "rk4.jit")
  | (_, inl _) => False
  end /\
  ModelInfo_init (Ex.env_seir (Some "euler") None)
    (Ex.args_seir (Some "euler") None PyNone) world0
  = (world0, inl (ValueError "Unknown integration method euler.")).
Proof.
  split; [| split; [| split]].
  - split; [| split; [| split]].
    + exact (proj1 (method_resolution Ex.env_plain "best.current")).
    + exact (proj1 (method_resolution Ex.env_plain "rk4")).
    + exact (proj1 (method_resolution Ex.env_plain "rk4.jit")).
    + exact (proj1 (method_resolution Ex.env_plain "legacy")).
  - destruct (proj1 (proj2 (method_resolution (Ex.env_seir (Some "rk4") None) "rk4")
                       (Ex.args_seir (Some "rk4") None PyNone) world0
                       eq_refl eq_refl eq_refl)) as (il & Hb & Hset).
    vm_compute in Hb. inversion Hb; subst il. exact Hset.
  - destruct (ModelInfo_init (Ex.env_seir (Some "rk4") None)
                (Ex.args_seir (Some "rk4") None PyNone) world0)
      as [w' [e | s]] eqn:H.
    + vm_compute in H. discriminate H.
    + exact (proj2 (proj2 (method_resolution (Ex.env_seir (Some "rk4") None) "rk4")
                      (Ex.args_seir (Some "rk4") None PyNone) world0
                      eq_refl eq_refl eq_refl) w' s H).
  - exact (proj2 (proj2 (method_resolution (Ex.env_seir (Some "euler") None) "euler")
                    (Ex.args_seir (Some "euler") None PyNone) world0
                    eq_refl eq_refl eq_refl)).
Defined.

(** The three aliases and [legacy] on the concrete environment: the
    constructor returns, with these methods. *)
Example method_resolution_runs :
  map (fun m =>
         match ModelInfo_init (Ex.env_seir (Some m) None)
                 (Ex.args_seir (Some m) None PyNone) world0 with
         | (_, inr s) => integration_method s
         | (_, inl _) => None
         end)
      ["best.current"; "rk4"; "rk4.jit"; "legacy"]
  = [Some (Ex.str "rk4.jit"); Some (Ex.str "rk4.jit"); Some (Ex.str "rk4.jit");
     Some (Ex.str "legacy")].
Proof. vm_compute. reflexivity. Qed.

(** Without an [integration] block the method is the default and the
    set-up logs it (lines 107-111). *)
Lemma default_method_without_block E a w w' s :
  enters_seir E a = inr true ->
  integration_block (self_seir_config E a) = None ->
  ModelInfo_init E a w = (w', inr s) ->
  integration_method s = Some (CScalar (PyStr "rk4.jit")) /\
  exists w0,
    integration_setup E (self_seir_config E a) (a_dt a) w
      = (w0, inr (integration_method s, dt s)) /\
    trace w0 = (trace w ++ [LogInfo msg_default_method])%list.
Proof.
  intros Henter Hb H. apply init_ok in H.
  destruct H as (_ & _ & _ & _ & _ & _ & _ & _ & enter & w1 & He & Hseir & _).
  rewrite Henter in He. inversion He; subst enter.
  destruct Hseir as (md & w0 & p & sd & Hset & _ & Him & Hdt).
  assert (Hinv := integration_setup_inr _ _ _ _ _ _ Hset). rewrite Hb in Hinv.
  destruct Hinv as (Htr & Hfst & _). split; [congruence |].
  exists w0. split; [| exact Htr].
  rewrite Him, Hdt. destruct md; exact Hset.
Qed.

(** With an [integration] block that has no [method], no branch of lines
    92-100 assigns [integration_method]: the descriptor has no such
    attribute, and the set-up logs nothing. *)
Lemma block_without_method E a w w' s il :
  enters_seir E a = inr true ->
  integration_block (self_seir_config E a) = Some (CDict il) ->
  assoc "method" il = None ->
  ModelInfo_init E a w = (w', inr s) ->
  integration_method s = None /\
  integration_setup E (self_seir_config E a) (a_dt a) w
    = (w, inr (integration_method s, dt s)).
Proof.
  intros Henter Hb Hm H. apply init_ok in H.
  destruct H as (_ & _ & _ & _ & _ & _ & _ & _ & enter & w1 & He & Hseir & _).
  rewrite Henter in He. inversion He; subst enter.
  destruct Hseir as (md & w0 & p & sd & Hset & _ & Him & Hdt).
  assert (Hinv := integration_setup_inr _ _ _ _ _ _ Hset). rewrite Hb in Hinv.
  destruct Hinv as (il' & d & Heq & -> & Hbm & _).
  inversion Heq; subst il'. rewrite block_method_dict, Hm in Hbm.
  split; [congruence |].
  rewrite Him, Hdt. destruct md; exact Hset.
Qed.

(** C6: the code at the failing input.  The SEIR configuration has an
    [integration] block with a [dt] and no [method]; the SEIR branch runs and
    the constructor returns, but the descriptor has no integration method and
    nothing was logged, where the claim has the default [rk4.jit] and a log
    entry. *)
Theorem method_missing_in_block_is_unset :
  enters_seir (Ex.env_seir None (Some "1/4"))
              (Ex.args_seir None (Some "1/4") PyNone) = inr true /\
  configured_method (Ex.seir_arg None (Some "1/4")) = None /\
  exists s,
    ModelInfo_init (Ex.env_seir None (Some "1/4"))
                   (Ex.args_seir None (Some "1/4") PyNone) world0
    = (world0, inr s) /\
    integration_method s = None /\ dt s = PyFloat 0.25%float.
Proof.
  split; [reflexivity |]. split; [reflexivity |].
  eexists. split; [vm_compute; reflexivity |]. split; reflexivity.
Qed.

(** The same constructor on a configuration without an [integration]
    block: the default method, and the log entry. *)
Example method_default_runs :
  exists s,
    ModelInfo_init Ex.env_plain (Ex.args_plain 10 20) world0
    = (mkWorld [LogInfo msg_default_method] 0, inr s) /\
    integration_method s = Some (Ex.str "rk4.jit") /\ dt s = PyFloat 2%float.
Proof. eexists. split; [vm_compute; reflexivity |]. split; reflexivity. Qed.

(** ** The time step *)

Lemma finish_dt_given E d d' :
  is_none d = false ->
  finish_dt E d = inr d' ->
  exists f, py_float E d = inr f /\ d' = PyFloat f.
Proof.
  unfold finish_dt. intros -> H. simpl in H.
  destruct (py_float E d) as [e | f]; [discriminate |].
  inversion H. exists f. split; reflexivity.
Qed.

(** The step of a returned descriptor, and the failure of [eval]. *)
Lemma step_size_returned (E : Env) (a : Args) (w : world) :
  a_ti a < a_tf a ->
  enters_seir E a = inr true ->
  (forall w' s,
      ModelInfo_init E a w = (w', inr s) ->
      match a_dt a with
      | PyNone =>
          match configured_dt (self_seir_config E a) with
          | None => dt s = PyFloat 2%float
          | Some v =>
              exists x f, py_eval E (py_str E v) = inr x /\
                          py_float E x = inr f /\ dt s = PyFloat f
          end
      | override => exists f, py_float E override = inr f /\ dt s = PyFloat f
      end) /\
  (forall v e,
      a_dt a = PyNone ->
      configured_dt (self_seir_config E a) = Some v ->
      py_eval E (py_str E v) = inl e ->
      exists e',
        ModelInfo_init E a w = (w, inl e') /\
        (e' = e \/
         exists got, configured_method (self_seir_config E a) = Some got /\
                     resolve_method E got = inl e')).
Proof.
  intros Hlt Henter. split.
  - intros w' s H. apply init_ok in H.
    destruct H as (_ & _ & _ & _ & _ & _ & _ & _ & enter & w1 & He & Hseir & _).
    rewrite Henter in He. inversion He; subst enter.
    destruct Hseir as (md & w0 & p & sd & Hset & _ & _ & Hdt).
    apply integration_setup_inr in Hset. rewrite Hdt. clear Hdt.
    unfold configured_dt.
    destruct (integration_block (self_seir_config E a)) as [b |].
    + destruct Hset as (il & d & -> & _ & _ & Hrd & Hfin).
      rewrite resolve_dt_dict in Hrd. simpl.
      destruct (a_dt a) as [| b | z | f | str]; simpl in Hrd;
        try (inversion Hrd; subst d;
             apply finish_dt_given in Hfin; [exact Hfin | reflexivity]).
      destruct (assoc "dt" il) as [got |].
      * destruct (py_eval E (py_str E got)) as [e | x] eqn:Hev; [discriminate |].
        destruct (py_float E x) as [e | f] eqn:Hfl; [discriminate |].
        inversion Hrd; subst d. simpl in Hfin. inversion Hfin.
        exists x, f. repeat split; assumption.
      * inversion Hrd; subst d. simpl in Hfin. inversion Hfin. reflexivity.
    + destruct Hset as (_ & _ & Hfin).
      destruct (a_dt a) as [| b | z | f | str]; simpl in Hfin;
        try (apply finish_dt_given in Hfin; [exact Hfin | reflexivity]).
      inversion Hfin. reflexivity.
  - intros v e Hnone Hv Heval.
    apply configured_dt_inv in Hv. destruct Hv as (il & Hb & Hv).
    assert (Hset := integration_setup_block E _ (a_dt a) w il Hb).
    rewrite block_method_dict, resolve_dt_dict in Hset.
    replace (is_none (a_dt a)) with true in Hset by (rewrite Hnone; reflexivity).
    rewrite Hv, Heval in Hset.
    destruct (assoc "method" il) as [got |] eqn:Hm.
    + destruct (resolve_method E got) as [e' | m] eqn:Hr.
      * exists e'. split.
        -- apply init_integration_fails; assumption.
        -- right. exists got. split; [| exact Hr].
           unfold configured_method. rewrite Hb. exact Hm.
      * exists e. split; [| left; reflexivity].
        apply init_integration_fails; assumption.
    + exists e. split; [| left; reflexivity].
      apply init_integration_fails; assumption.
Qed.

(** C7: when the SEIR branch runs, the integration set-up resolves the step
    by the rule [expected_step]: the float of the [dt] argument when one is
    given, whatever the configuration says; without it, the float of the
    value that [eval] gives to the text of the configured [dt]; and 2.0 when
    neither is there.  The set-up returns exactly when the keys, the method
    and this step do, with this step; a failure of the set-up ([eval] or
    [float] raising on the step, an unknown method) is the failure of the
    constructor, and the step of a descriptor that the constructor returns is
    the step of the rule. *)
Theorem step_size_resolution (E : Env) (a : Args) (w : world) :
  a_ti a < a_tf a ->
  enters_seir E a = inr true ->
  integration_setup E (self_seir_config E a) (a_dt a) w =
  match arg_keys (self_seir_config E a) with
  | inl e => (w, inl e)
  | inr _ =>
      match integration_block (self_seir_config E a) with
      | Some (CDict il) =>
          match block_method E (Found (CDict il)) with
          | inl e => (w, inl e)
          | inr method =>
              match expected_step E (assoc "dt" il) (a_dt a) with
              | inl e => (w, inl e)
              | inr d => (w, inr (method, d))
              end
          end
      | Some (CScalar _) => (w, inl ConfigTypeError)
      | None =>
          match expected_step E None (a_dt a) with
          | inl e => (logged w, inl e)
          | inr d => (logged w, inr (Some (CScalar (PyStr "rk4.jit")), d))
          end
      end
  end /\
  (forall w0 e,
      integration_setup E (self_seir_config E a) (a_dt a) w = (w0, inl e) ->
      ModelInfo_init E a w = (w0, inl e)) /\
  (forall w' s,
      ModelInfo_init E a w = (w', inr s) ->
      expected_step E (configured_dt (self_seir_config E a)) (a_dt a)
      = inr (dt s)) /\
  (forall w' s,
      ModelInfo_init E a w = (w', inr s) ->
      match a_dt a with
      | PyNone =>
          match configured_dt (self_seir_config E a) with
          | None => dt s = PyFloat 2%float
          | Some v =>
              exists x f, py_eval E (py_str E v) = inr x /\
                          py_float E x = inr f /\ dt s = PyFloat f
          end
      | override => exists f, py_float E override = inr f /\ dt s = PyFloat f
      end) /\
  (forall v e,
      a_dt a = PyNone ->
      configured_dt (self_seir_config E a) = Some v ->
      py_eval E (py_str E v) = inl e ->
      exists e',
        ModelInfo_init E a w = (w, inl e') /\
        (e' = e \/
         exists got, configured_method (self_seir_config E a) = Some got /\
                     resolve_method E got = inl e')).
Proof.
  intros Hlt Henter.
  split; [apply integration_setup_eq |].
  split; [intros w0 e; apply init_integration_fails; assumption |].
  split; [| exact (step_size_returned E a w Hlt Henter)].
  intros w' s H. apply init_ok in H.
  destruct H as (_ & _ & _ & _ & _ & _ & _ & _ & enter & w1 & He & Hseir & _).
  rewrite Henter in He. inversion He; subst enter.
  destruct Hseir as (md & w0 & p & sd & Hset & _ & _ & Hdt).
  rewrite integration_setup_eq in Hset. rewrite Hdt. unfold configured_dt.
  destruct (arg_keys (self_seir_config E a)) as [e | keys]; [discriminate |].
  destruct (integration_block (self_seir_config E a)) as [[v | il] |];
    [discriminate | |].
  - destruct (block_method E (Found (CDict il))) as [e | method]; [discriminate |].
    simpl. destruct (expected_step E (assoc "dt" il) (a_dt a)) as [e | d];
      inversion Hset. reflexivity.
  - destruct (expected_step E None (a_dt a)) as [e | d]; inversion Hset.
    reflexivity.
Qed.

Lemma step_size_resolution_witness :
  integration_setup (Ex.env_seir (Some "rk4") None) (Ex.seir_arg (Some "rk4") None)
    PyNone world0
  = (world0, inr (Some (Ex.str "rk4.jit"), PyFloat 2%float)) /\
  integration_setup (Ex.env_seir (Some "rk4") (Some "1/4"))
    (Ex.seir_arg (Some "rk4") (Some "1/4")) PyNone world0
  = (world0, inr (Some (Ex.str "rk4.jit"), PyFloat 0.25%float)) /\
  integration_setup (Ex.env_seir (Some "rk4") (Some "1/4"))
    (Ex.seir_arg (Some "rk4") (Some "1/4")) (PyFloat 1%float) world0
  = (world0, inr (Some (Ex.str "rk4.jit"), PyFloat 1%float)) /\
  integration_setup (Ex.env_seir (Some "rk4") (Some "1/"))
    (Ex.seir_arg (Some "rk4") (Some "1/")) (PyInt 3) world0
  = (world0, inr (Some (Ex.str "rk4.jit"), PyFloat 3%float)) /\
  ModelInfo_init (Ex.env_seir (Some "rk4") (Some "1/"))
    (Ex.args_seir (Some "rk4") (Some "1/") PyNone) world0
  = (world0, inl (External "SyntaxError" "invalid syntax")) /\
  match ModelInfo_init (Ex.env_seir (Some "rk4") (Some "1/4"))
          (Ex.args_seir (Some "rk4") (Some "1/4") PyNone) world0 with
  | (_, inr s) => dt s = PyFloat 0.25%float
  | (_, inl _) => False
  end.
Proof.
  split; [| split; [| split; [| split; [| split]]]].
  - exact (proj1 (step_size_resolution (Ex.env_seir (Some "rk4") None)
                    (Ex.args_seir (Some "rk4") None PyNone) world0
                    eq_refl eq_refl)).
  - exact (proj1 (step_size_resolution (Ex.env_seir (Some "rk4") (Some "1/4"))
                    (Ex.args_seir (Some "rk4") (Some "1/4") PyNone) world0
                    eq_refl eq_refl)).
  - exact (proj1 (step_size_resolution (Ex.env_seir (Some "rk4") (Some "1/4"))
                    (Ex.args_seir (Some "rk4") (Some "1/4") (PyFloat 1%float))
                    world0 eq_refl eq_refl)).
  - exact (proj1 (step_size_resolution (Ex.env_seir (Some "rk4") (Some "1/"))
                    (Ex.args_seir (Some "rk4") (Some "1/") (PyInt 3))
                    world0 eq_refl eq_refl)).
  - exact (proj1 (proj2 (step_size_resolution
                           (Ex.env_seir (Some "rk4") (Some "1/"))
                           (Ex.args_seir (Some "rk4") (Some "1/") PyNone) world0
                           eq_refl eq_refl))
             world0 (External "SyntaxError" "invalid syntax") eq_refl).
  - destruct (ModelInfo_init (Ex.env_seir (Some "rk4") (Some "1/4"))
                (Ex.args_seir (Some "rk4") (Some "1/4") PyNone) world0)
      as [w' [e | s]] eqn:H.
    + vm_compute in H. discriminate H.
    + assert (Hx := proj1 (proj2 (proj2 (step_size_resolution
                                    (Ex.env_seir (Some "rk4") (Some "1/4"))
                                    (Ex.args_seir (Some "rk4") (Some "1/4") PyNone)
                                    world0 eq_refl eq_refl))) w' s H).
      vm_compute in Hx. inversion Hx as [Hd]. symmetry. exact Hd.
Defined.

(** The steps that the constructor resolves on the concrete environment:
    no [dt] anywhere, [dt: "1/4"], [dt: "1/4"] under the argument [dt=1.0],
    and the argument alone. *)
Example step_size_runs :
  map (fun c : option string * scalar =>
         match ModelInfo_init (Ex.env_seir (Some "rk4") (fst c))
                 (Ex.args_seir (Some "rk4") (fst c) (snd c)) world0 with
         | (_, inr s) => Some (dt s)
         | (_, inl _) => None
         end)
      [(None, PyNone); (Some "1/4", PyNone); (Some "1/4", PyFloat 1%float);
       (None, PyFloat 1%float); (Some "1/", PyFloat 1%float); (Some "1/", PyNone)]
  = [Some (PyFloat 2%float); Some (PyFloat 0.25%float); Some (PyFloat 1%float);
     Some (PyFloat 1%float); Some (PyFloat 1%float); None].
Proof. vm_compute. reflexivity. Qed.

(** ** The outcomes configuration *)

(** A descriptor is returned only when the outcomes configuration is false:
    a true one reaches [self.config] on line 135, which raises. *)
Lemma truthy_outcomes_never_construct E a w w' s :
  arg_truthy (a_outcomes_config a) = inr true ->
  ModelInfo_init E a w <> (w', inr s).
Proof.
  intros Ht H. apply init_ok in H.
  destruct H as (_ & _ & _ & _ & _ & _ & Hf & _). congruence.
Qed.

(** C1: the code at the failing input.  The outcomes configuration is a
    non-empty mapping; whether or not the process-wide configuration has an
    [outcomes_modifiers] section, the constructor raises the [AttributeError]
    of [self.config] (after the SEIR branch has run and logged its default),
    where the claim has the section bound, or [None], and a descriptor. *)
Theorem outcomes_lookup_raises :
  arg_truthy (a_outcomes_config Ex.args_outcomes) = inr true /\
  view_exists (config_item (Ex.env_outcomes true) "outcomes_modifiers") = true /\
  ModelInfo_init (Ex.env_outcomes true) Ex.args_outcomes world0
  = (mkWorld [LogInfo msg_default_method] 0, inl (AttributeError msg_no_config)) /\
  view_exists (config_item (Ex.env_outcomes false) "outcomes_modifiers") = false /\
  ModelInfo_init (Ex.env_outcomes false) Ex.args_outcomes world0
  = (mkWorld [LogInfo msg_default_method] 0, inl (AttributeError msg_no_config)).
Proof. repeat split; vm_compute; reflexivity. Qed.

(** ** The output format *)

Lemma output_setup_extension E a r p w w' t e :
  output_setup E a r p w = (w', inr (t, e)) ->
  e = (if a_write_parquet a then Some "parquet"
       else if a_write_csv a then Some "csv" else None) /\
  (a_write_parquet a && a_write_csv a = true ->
   exists w1, w' = warned w1).
Proof.
  unfold output_setup. intros H.
  destruct (a_write_csv a) eqn:Hc; destruct (a_write_parquet a) eqn:Hp; simpl in H;
    try (bind_inv H as b wb Hb; bind_inv H as u wu Hu; bind_inv H as u' wu' Hu';
         apply ret_inr in H; destruct H as [Heq ->]; inversion Heq;
         split; [reflexivity |]; intros Hboth; try discriminate Hboth).
  - unfold emit in Hu'. inversion Hu'. exists wu. reflexivity.
  - apply ret_inr in H. destruct H as [Heq ->]. inversion Heq.
    split; [reflexivity | discriminate].
Qed.

Lemma init_extension E a w w' s :
  ModelInfo_init E a w = (w', inr s) ->
  extension s = (if a_write_parquet a then Some "parquet"
                 else if a_write_csv a then Some "csv" else None) /\
  (a_write_parquet a && a_write_csv a = true -> exists w1, w' = warned w1).
Proof.
  intros H. apply init_ok in H.
  destruct H as (_ & _ & _ & _ & _ & _ & _ & _ & enter & w1 & _ & _ & w2 & _ & Ho).
  apply output_setup_extension in Ho. exact Ho.
Qed.










(** Both formats, Parquet alone, CSV alone and neither, on the concrete
    environment: the extension and what was logged, created and printed. *)
Example output_format_runs :
  map (fun c : bool * bool =>
         match ModelInfo_init Ex.env_plain (Ex.args_write (fst c) (snd c) 1) world0
         with
         | (w1, inr s) => Some (extension s, trace w1)
         | (_, inl _) => None
         end)
      [(true, true); (false, true); (true, false); (false, false)]
  = [Some (Some "parquet",
           [LogInfo msg_default_method; Makedirs "seir"; Makedirs "spar";
            Makedirs "snpi"; Print msg_confused]);
     Some (Some "parquet",
           [LogInfo msg_default_method; Makedirs "seir"; Makedirs "spar";
            Makedirs "snpi"]);
     Some (Some "csv",
           [LogInfo msg_default_method; Makedirs "seir"; Makedirs "spar";
            Makedirs "snpi"]);
     Some (None, [LogInfo msg_default_method])].
Proof. vm_compute. reflexivity. Qed.

(** ** File names *)

Lemma get_filename_override E s ftype sim_id input ext :
  ext <> "" ->
  get_filename E s ftype sim_id input ext =
  inr (create_file_name E
         (if input then in_run_id s else out_run_id s)
         (if input then in_prefix s else out_prefix s)
         (sim_id + first_sim_index s - 1) ftype ext).
Proof.
  intros Hne. unfold get_filename.
  destruct (String.eqb_spec ext "") as [-> | _]; [contradiction |].
  simpl. destruct input; reflexivity.
Qed.

Lemma get_filename_inr E s ftype sim_id input ext path :
  get_filename E s ftype sim_id input ext = inr path ->
  exists extension,
    (if String.eqb ext "" then self_extension s else inr ext) = inr extension /\
    path = create_file_name E
             (if input then in_run_id s else out_run_id s)
             (if input then in_prefix s else out_prefix s)
             (sim_id + first_sim_index s - 1) ftype extension.
Proof.
  unfold get_filename. intros H.
  destruct (String.eqb ext ""); simpl in *.
  - destruct (self_extension s) as [e | x]; [discriminate |].
    exists x. split; [reflexivity |]. destruct input; inversion H; reflexivity.
  - exists ext. split; [reflexivity |]. destruct input; inversion H; reflexivity.
Qed.

(** Leading zeros do not change the number that a string denotes. *)
Lemma uint_of_zeros n t d :
  NilEmpty.uint_of_string t = Some d ->
  exists d', NilEmpty.uint_of_string (zeros n ++ t) = Some d'
             /\ Z.of_uint d' = Z.of_uint d.
Proof.
  intros Ht. induction n as [| n IH]; simpl.
  - exists d. split; [exact Ht | reflexivity].
  - destruct IH as (d' & Hd' & Hz). rewrite Hd'. simpl.
    exists (Decimal.D0 d'). split; [reflexivity | exact Hz].
Qed.

Lemma zeros_app_nonempty n t : t <> "" -> zeros n ++ t <> "".
Proof. destruct n; simpl; [trivial | discriminate]. Qed.

Lemma length_app s t :
  String.length (s ++ t) = (String.length s + String.length t)%nat.
Proof. induction s as [| c s IH]; simpl; [reflexivity | rewrite IH; reflexivity]. Qed.

Lemma length_zeros n : String.length (zeros n) = n.
Proof. induction n as [| n IH]; simpl; [reflexivity | rewrite IH; reflexivity]. Qed.

(** The digits of a natural number, read back. *)
Lemma string_of_Z_nonneg z :
  0 <= z ->
  string_of_Z z <> "" /\
  exists d, NilEmpty.uint_of_string (string_of_Z z) = Some d /\ Z.of_uint d = z.
Proof.
  intros Hz. unfold string_of_Z.
  assert (Hof := DecimalZ.of_to z).
  destruct (Z.to_int z) as [u | u] eqn:Hu.
  - simpl in Hof. simpl. unfold NilZero.string_of_uint.
    destruct u; try (split; [discriminate |];
                     eexists; split; [apply NilEmpty.usu | exact Hof]).
    split; [discriminate |]. exists (Decimal.D0 Decimal.Nil).
    split; [reflexivity | exact Hof].
  - exfalso. destruct z as [| p | p]; simpl in Hu; try discriminate. lia.
Qed.

(** The index under [09d] has nine characters or more and denotes the
    index. *)
Lemma format_09d_decodes z :
  0 <= z ->
  decode_index (format_09d z) = Some z /\ (9 <= String.length (format_09d z))%nat.
Proof.
  intros Hz. unfold format_09d.
  assert (Hneg : (z <? 0) = false) by (apply Z.ltb_ge; exact Hz). rewrite Hneg.
  destruct (string_of_Z_nonneg z Hz) as (Hne & d & Hd & Hzd).
  unfold zfill. split.
  - destruct (uint_of_zeros (9 - String.length (string_of_Z z)) _ _ Hd)
      as (d' & Hd' & Hz').
    unfold decode_index, NilZero.uint_of_string.
    assert (Hnz := zeros_app_nonempty (9 - String.length (string_of_Z z)) _ Hne).
    destruct (zeros (9 - String.length (string_of_Z z)) ++ string_of_Z z) eqn:Hs;
      [contradiction |].
    rewrite Hd'. simpl. congruence.
  - rewrite length_app, length_zeros. lia.
Qed.

Lemma spec_names_by_grammar c : names_by_grammar (Ex.env c).
Proof. exists (fun _ prefix _ => prefix). intros. reflexivity. Qed.

(** C9: the file name that [get_filename] returns is the one the namer
    makes for the index [sim_id + first_sim_index - 1]; under the file-name
    grammar this index stands in the path zero-padded to nine digits, before
    the run identifier, the file type and the extension, and (for an index
    that is not negative) denotes exactly [sim_id + first_sim_index - 1]. *)
Theorem filename_global_index (E : Env) (s : ModelInfo) (ftype : string)
    (sim_id : Z) (input : bool) (ext path : string) :
  names_by_grammar E ->
  get_filename E s ftype sim_id input ext = inr path ->
  (exists extension,
      path = create_file_name E
               (if input then in_run_id s else out_run_id s)
               (if input then in_prefix s else out_prefix s)
               (sim_id + first_sim_index s - 1) ftype extension) /\
  (exists dir extension,
      path = dir ++ format_09d (sim_id + first_sim_index s - 1) ++ "."
                 ++ (if input then in_run_id s else out_run_id s) ++ "."
                 ++ ftype ++ "." ++ extension) /\
  (0 <= sim_id + first_sim_index s - 1 ->
   decode_index (format_09d (sim_id + first_sim_index s - 1))
   = Some (sim_id + first_sim_index s - 1)).
Proof.
  intros [dir Hdir] H. apply get_filename_inr in H.
  destruct H as (extension & _ & ->). split; [| split].
  - exists extension. reflexivity.
  - eexists. exists extension. apply Hdir.
  - intros Hz. apply format_09d_decodes. exact Hz.
Qed.

(** The descriptors of the concrete environment with the first simulation
    index 1 and 100 name simulation 1 by the indices 1 and 100. *)
Example filename_runs :
  map (fun first : Z =>
         match ModelInfo_init Ex.env_plain (Ex.args_write false true first) world0
         with
         | (_, inr s) => Some (get_filename Ex.env_plain s "hnpi" 1 false "")
         | (_, inl _) => None
         end)
      [1; 100]
  = [Some (inr "000000001.105.hnpi.parquet");
     Some (inr "000000100.105.hnpi.parquet")].
Proof. vm_compute. reflexivity. Qed.

Lemma filename_global_index_witness :
  match ModelInfo_init Ex.env_plain (Ex.args_write false true 100) world0 with
  | (_, inr s) =>
      get_filename Ex.env_plain s "hnpi" 1 false "" = inr "000000100.105.hnpi.parquet"
      /\ first_sim_index s = 100
      /\ decode_index (format_09d (1 + first_sim_index s - 1))
         = Some (1 + first_sim_index s - 1)
  | (_, inl _) => False
  end.
Proof.
  destruct (ModelInfo_init Ex.env_plain (Ex.args_write false true 100) world0)
    as [w' [e | s]] eqn:H.
  - vm_compute in H. discriminate H.
  - assert (Hs : get_filename Ex.env_plain s "hnpi" 1 false ""
                 = inr "000000100.105.hnpi.parquet"
                 /\ first_sim_index s = 100).
    { vm_compute in H. inversion H. split; reflexivity. }
    destruct Hs as [Hname Hfirst]. split; [exact Hname |]. split; [exact Hfirst |].
    apply (filename_global_index Ex.env_plain s "hnpi" 1 false ""
             "000000100.105.hnpi.parquet" (spec_names_by_grammar _) Hname).
    rewrite Hfirst. discriminate.
Defined.

(** ** Without an output format *)

(** C10: a descriptor constructed with neither CSV nor Parquet requested has
    no [extension] attribute.  With an empty [extension_override],
    [get_filename], [read_simID] and [write_simID] raise the [AttributeError]
    of [self.extension]; with a non-empty one, [get_filename] returns the
    name made with exactly that extension, [read_simID] reads that file and
    [write_simID] writes it and returns its name. *)
Theorem no_default_extension (E : Env) (a : Args) (w w' : world) (s : ModelInfo) :
  a_write_csv a = false ->
  a_write_parquet a = false ->
  ModelInfo_init E a w = (w', inr s) ->
  extension s = None /\
  (forall ftype sim_id input,
      get_filename E s ftype sim_id input "" = inl (AttributeError msg_no_extension)
      /\ read_simID E s ftype sim_id input "" = inl (AttributeError msg_no_extension)
      /\ forall df, write_simID E s ftype sim_id df input ""
                    = inl (AttributeError msg_no_extension)) /\
  (forall (ftype : string) (sim_id : Z) (input : bool) (ext : string),
      ext <> "" ->
      let fname := create_file_name E
                     (if input then in_run_id s else out_run_id s)
                     (if input then in_prefix s else out_prefix s)
                     (sim_id + first_sim_index s - 1) ftype ext in
      get_filename E s ftype sim_id input ext = inr fname
      /\ read_simID E s ftype sim_id input ext = read_df E fname
      /\ forall df, write_simID E s ftype sim_id df input ext
                    = match write_df E fname df with
                      | Some e => inl e
                      | None => inr fname
                      end).
Proof.
  intros Hc Hp H. apply init_extension in H. destruct H as [Hext _].
  rewrite Hc, Hp in Hext. split; [exact Hext |]. split.
  - intros ftype sim_id input.
    assert (Hg : get_filename E s ftype sim_id input ""
                 = inl (AttributeError msg_no_extension)).
    { unfold get_filename, self_extension. rewrite Hext. reflexivity. }
    split; [exact Hg |]. split.
    + unfold read_simID. rewrite Hg. reflexivity.
    + intros df. unfold write_simID. rewrite Hg. reflexivity.
  - intros ftype sim_id input ext Hne fname.
    assert (Hg := get_filename_override E s ftype sim_id input ext Hne).
    fold fname in Hg. split; [exact Hg |]. split.
    + unfold read_simID. rewrite Hg. reflexivity.
    + intros df. unfold write_simID. rewrite Hg. reflexivity.
Qed.

Lemma no_default_extension_witness :
  match ModelInfo_init Ex.env_plain (Ex.args_plain 10 20) world0 with
  | (_, inr s) =>
      extension s = None
      /\ get_filename Ex.env_plain s "hnpi" 1 false ""
         = inl (AttributeError msg_no_extension)
      /\ get_filename Ex.env_plain s "hnpi" 1 false "csv"
         = inr (spec_create_file_name (out_run_id s) (out_prefix s)
                  (1 + first_sim_index s - 1) "hnpi" "csv")
  | (_, inl _) => False
  end.
Proof.
  destruct (ModelInfo_init Ex.env_plain (Ex.args_plain 10 20) world0)
    as [w' [e | s]] eqn:H.
  - vm_compute in H. discriminate H.
  - destruct (no_default_extension Ex.env_plain (Ex.args_plain 10 20) world0 w' s
                eq_refl eq_refl H) as (Hext & Hempty & Hgiven).
    split; [exact Hext |]. split.
    + exact (proj1 (Hempty "hnpi" 1 false)).
    + refine (proj1 (Hgiven "hnpi" 1 false "csv" _)). discriminate.
Defined.

(** The same on the concrete environment: without a format, the empty
    override raises and the override [csv] names the file. *)
Example no_default_extension_runs :
  match ModelInfo_init Ex.env_plain (Ex.args_plain 10 20) world0 with
  | (_, inr s) =>
      (get_filename Ex.env_plain s "hnpi" 1 false "",
       get_filename Ex.env_plain s "hnpi" 1 false "csv",
       write_simID Ex.env_plain s "hnpi" 1 [] false "csv")
      = (inl (AttributeError msg_no_extension),
         inr "000000001.105.hnpi.csv", inr "000000001.105.hnpi.csv")
  | (_, inl _) => False
  end.
Proof. vm_compute. reflexivity. Qed.

(** * Further properties of the constructor and of the file names *)

(** ** The steps of a construction that returns *)

Lemma init_inv E a w w' s :
  ModelInfo_init E a w = (w', inr s) ->
  exists enter method dt' p sd c w1 rin wi rout wo te,
    enters_seir E a = inr enter /\
    (if enter : bool then
       exists md w0 p0 sd0,
         integration_setup E (self_seir_config E a) (a_dt a) w = (w0, inr md) /\
         seir_collaborators E a (self_seir_config E a) w0
           = (w1, inr (p0, sd0, c)) /\
         method = fst md /\ dt' = snd md /\ p = Some p0 /\ sd = Some sd0
     else w1 = w /\ method = None /\ dt' = a_dt a /\ p = None /\ sd = None
          /\ c = None) /\
    arg_truthy (a_outcomes_config a) = inr false /\
    match a_in_run_id a with
    | None => file_paths_run_id E
    | Some r => ret r
    end w1 = (wi, inr rin) /\
    match a_out_run_id a with
    | None => file_paths_run_id E
    | Some r => ret r
    end wi = (wo, inr rout) /\
    integration_method s = method /\ dt s = dt' /\
    parameters s = p /\ seedingAndIC s = sd /\ compartments s = c /\
    in_run_id s = rin /\ out_run_id s = rout /\
    in_prefix s =
      match a_in_prefix a with
      | None => "model_output/" ++ a_setup_name a ++ "/" ++ rin ++ "/"
      | Some x => x
      end /\
    out_prefix s =
      match a_out_prefix a with
      | None => "model_output/" ++ a_setup_name a ++ "/"
                ++ fmt_opt (a_npi_scenario a) ++ "/" ++ rout ++ "/"
      | Some x => x
      end /\
    output_setup E a (out_run_id s) (out_prefix s) wo = (w', inr te) /\
    timestamp s = fst te /\ extension s = snd te.
Proof.
  unfold ModelInfo_init. intros H.
  destruct (a_tf a <=? a_ti a) eqn:Hle; [discriminate |].
  bind_inv H as enter we Henter.
  apply lift_inr in Henter. destruct Henter as [Henter ->].
  bind_inv H as seir w1 Hseir.
  destruct seir as [[[[method dt'] p] sd] c].
  bind_inv H as b wb Hout.
  apply lift_inr in Hout. destruct Hout as [Hout ->].
  bind_inv H as npi wn Hnpi.
  bind_inv H as rin wi Hin.
  bind_inv H as rout wo Hrout.
  bind_inv H as te wt Hte.
  apply ret_inr in H. destruct H as [-> ->]. simpl.
  assert (Hb : b = false /\ wn = w1).
  { destruct b.
    - bind_inv Hnpi as c0 wc Hc. apply lift_inr in Hc. destruct Hc as [Hc _].
      discriminate Hc.
    - apply ret_inr in Hnpi. destruct Hnpi as [_ ->]. split; reflexivity. }
  destruct Hb as (-> & ->).
  exists enter, method, dt', p, sd, c, w1, rin, wi, rout, wo, te.
  split; [exact Henter |]. split.
  - destruct enter.
    + bind_inv Hseir as md w0 Hmd. bind_inv Hseir as psc wc Hpsc.
      destruct psc as [[p0 s0] c0].
      apply ret_inr in Hseir. destruct Hseir as [Heq ->]. inversion Heq; subst.
      exists md, w0, p0, s0. repeat split; assumption.
    + apply ret_inr in Hseir. destruct Hseir as [Heq ->]. inversion Heq; subst.
      repeat split; reflexivity.
  - repeat (split; [first [assumption | reflexivity] |]). reflexivity.
Qed.

(** What each step does to the world. *)

Lemma seir_collaborators_world E a sc w w' r :
  seir_collaborators E a sc w = (w', r) -> w' = w.
Proof.
  unfold seir_collaborators, bind, call, raise, ret.
  destruct (Parameters_raises E _); [intros H; inversion H; reflexivity |].
  destruct (SeedingAndIC_raises E _); [intros H; inversion H; reflexivity |].
  destruct (view_exists (config_item E "compartments") && negb (arg_is_none sc)).
  - destruct (Compartments_raises E _); intros H; inversion H; reflexivity.
  - intros H; inversion H; reflexivity.
Qed.

Lemma integration_setup_calls E sc dt w w' md :
  integration_setup E sc dt w = (w', inr md) ->
  run_id_calls w' = run_id_calls w.
Proof.
  unfold integration_setup. intros H.
  bind_inv H as keys wk Hkeys. apply lift_inr in Hkeys. destruct Hkeys as [_ ->].
  bind_inv H as r wr Hr.
  bind_inv H as d wd Hd. apply lift_inr in Hd. destruct Hd as [_ ->].
  apply ret_inr in H. destruct H as [_ ->].
  destruct (key_in "integration" keys).
  - bind_inv Hr as integ wi Hi. apply lift_inr in Hi. destruct Hi as [_ ->].
    bind_inv Hr as m wm Hm. apply lift_inr in Hm. destruct Hm as [_ ->].
    bind_inv Hr as d' wd' Hd'. apply lift_inr in Hd'. destruct Hd' as [_ ->].
    apply ret_inr in Hr. destruct Hr as [_ ->]. reflexivity.
  - bind_inv Hr as u wu Hu. apply ret_inr in Hr. destruct Hr as [_ ->].
    unfold emit in Hu. inversion Hu. reflexivity.
Qed.

Lemma opt_run_id_step E (o : option string) w w' r :
  match o with None => file_paths_run_id E | Some x => ret x end w = (w', inr r) ->
  trace w' = trace w /\
  r = match o with Some x => x | None => run_id E (run_id_calls w) end /\
  run_id_calls w' = (run_id_calls w + match o with None => 1 | Some _ => 0 end)%nat.
Proof.
  destruct o as [x |]; intros H.
  - apply ret_inr in H. destruct H as [-> ->]. repeat split. lia.
  - unfold file_paths_run_id in H. inversion H. simpl. repeat split. lia.
Qed.

Lemma make_dirs_inr E r p ftypes w w' u :
  make_dirs E r p ftypes w = (w', inr u) ->
  trace w' = (trace w ++ map Makedirs (map (create_dir_name E r p) ftypes))%list /\
  run_id_calls w' = run_id_calls w /\
  Forall (fun d => os_makedirs E d = None) (map (create_dir_name E r p) ftypes).
Proof.
  revert w. induction ftypes as [| ft rest IH]; intros w H; simpl in H.
  - apply ret_inr in H. destruct H as [_ ->]. simpl.
    rewrite app_nil_r. repeat split. constructor.
  - bind_inv H as u1 w1 He. unfold emit in He. inversion He; subst. clear He.
    bind_inv H as u2 w2 Hc.
    destruct (os_makedirs E (create_dir_name E r p ft)) as [e |] eqn:Hos;
      unfold call, raise, ret in Hc; inversion Hc; subst. clear Hc.
    apply IH in H. simpl in H. destruct H as (Ht & Hn & Hf).
    simpl. rewrite Ht, <- app_assoc. simpl. repeat split; try assumption.
    constructor; assumption.
Qed.

Lemma output_setup_inr E a r p w w' te :
  arg_truthy (a_outcomes_config a) = inr false ->
  output_setup E a r p w = (w', inr te) ->
  trace w' =
    (trace w ++
     (if a_write_csv a || a_write_parquet a then
        (if view_exists (config_item E "seir")
         then map Makedirs (seir_dirs E r p) else [])
        ++ (if a_write_parquet a && a_write_csv a then [Print msg_confused] else [])
      else []))%list /\
  run_id_calls w' = run_id_calls w /\
  fst te = (if a_write_csv a || a_write_parquet a then Some (now_stamp E) else None) /\
  (a_write_csv a || a_write_parquet a = true ->
   view_exists (config_item E "seir") = true ->
   Forall (fun d => os_makedirs E d = None) (seir_dirs E r p)).
Proof.
  intros Hout. unfold output_setup. rewrite Hout.
  destruct (a_write_csv a || a_write_parquet a).
  - intros H. bind_inv H as b wb Hb. apply lift_inr in Hb.
    destruct Hb as [Hb ->]. inversion Hb; subst b. clear Hb.
    rewrite app_nil_r in H.
    bind_inv H as u wu Hdirs. apply make_dirs_inr in Hdirs.
    destruct Hdirs as (Ht & Hn & Hf).
    bind_inv H as u' wu' Hwarn.
    apply ret_inr in H. destruct H as [-> ->]. simpl.
    assert (Hw : trace wu' =
                 (trace wu ++ if a_write_parquet a && a_write_csv a
                              then [Print msg_confused] else [])%list
                 /\ run_id_calls wu' = run_id_calls wu).
    { destruct (a_write_parquet a && a_write_csv a).
      - unfold emit in Hwarn. inversion Hwarn. split; reflexivity.
      - apply ret_inr in Hwarn. destruct Hwarn as [_ ->].
        rewrite app_nil_r. split; reflexivity. }
    destruct Hw as [Hw1 Hw2]. rewrite Hw1, Hw2, Ht, Hn.
    unfold seir_dirs.
    destruct (view_exists (config_item E "seir")); simpl in *.
    + rewrite <- app_assoc. repeat split. intros _ _. exact Hf.
    + rewrite app_nil_r. repeat split. intros _ Hc. discriminate Hc.
  - intros H. apply ret_inr in H. destruct H as [-> ->]. simpl.
    rewrite app_nil_r. repeat split. intros Hc. discriminate Hc.
Qed.

(** ** The time span of a descriptor *)

(** X1: every descriptor that the constructor returns spans two days at
    least: its dates are strictly ordered and its day count is 2 or more. *)
Theorem descriptor_spans_two_days (E : Env) (a : Args) (w w' : world)
    (s : ModelInfo) :
  ModelInfo_init E a w = (w', inr s) ->
  ti s < tf s /\ 2 <= n_days s /\ n_days s = tf s - ti s + 1.
Proof.
  intros H. apply init_ok in H.
  destruct H as (Hlt & Hti & Htf & Hn & _). rewrite Hti, Htf, Hn. lia.
Qed.

Lemma descriptor_spans_two_days_witness :
  match ModelInfo_init Ex.env_plain (Ex.args_plain 10 11) world0 with
  | (_, inr s) => ti s < tf s /\ 2 <= n_days s /\ n_days s = tf s - ti s + 1
  | (_, inl _) => False
  end.
Proof.
  destruct (ModelInfo_init Ex.env_plain (Ex.args_plain 10 11) world0)
    as [w' [e | s]] eqn:H.
  - vm_compute in H. discriminate H.
  - exact (descriptor_spans_two_days Ex.env_plain (Ex.args_plain 10 11)
             world0 w' s H).
Defined.

(** ** The integration policy of a descriptor *)

Lemma resolve_method_canonical E got m :
  resolve_method E got = inr m ->
  m = CScalar (PyStr "rk4.jit") \/ m = CScalar (PyStr "legacy").
Proof.
  unfold resolve_method.
  set (m1 := if cfg_eq_str got "best.current" then CScalar (PyStr "rk4.jit") else got).
  set (m2 := if cfg_eq_str m1 "rk4" then CScalar (PyStr "rk4.jit") else m1).
  destruct (cfg_eq_str m2 "rk4.jit") eqn:H1; simpl.
  - intros H. inversion H; subst m. left.
    destruct m2 as [[| b | z | f | str] | l]; simpl in H1; try discriminate.
    apply String.eqb_eq in H1. congruence.
  - destruct (cfg_eq_str m2 "legacy") eqn:H2; simpl; [| discriminate].
    intros H. inversion H; subst m. right.
    destruct m2 as [[| b | z | f | str] | l]; simpl in H2; try discriminate.
    apply String.eqb_eq in H2. congruence.
Qed.

(** X2: whatever the configuration holds as method (a string or not), the
    integration method of a descriptor, when it has one, is [rk4.jit] or
    [legacy], and resolving it again gives the same method. *)
Theorem integration_method_canonical (E : Env) (a : Args) (w w' : world)
    (s : ModelInfo) (m : cfg) :
  ModelInfo_init E a w = (w', inr s) ->
  integration_method s = Some m ->
  (m = CScalar (PyStr "rk4.jit") \/ m = CScalar (PyStr "legacy")) /\
  resolve_method E m = inr m.
Proof.
  intros H Hm.
  assert (Hcan : m = CScalar (PyStr "rk4.jit") \/ m = CScalar (PyStr "legacy")).
  { apply init_ok in H.
    destruct H as (_ & _ & _ & _ & _ & _ & _ & _ & enter & w1 & _ & Hseir & _).
    destruct enter.
    - destruct Hseir as (md & w0 & p & sd & Hset & _ & Him & _).
      apply integration_setup_inr in Hset.
      destruct (integration_block (self_seir_config E a)) as [b |].
      + destruct Hset as (il & d & _ & _ & Hbm & _).
        rewrite block_method_dict in Hbm.
        destruct (assoc "method" il) as [got |]; [| congruence].
        destruct (resolve_method E got) as [e | m'] eqn:Hr; [discriminate |].
        apply resolve_method_canonical in Hr.
        assert (m = m') by congruence. subst m'. exact Hr.
      + destruct Hset as (_ & Hfst & _). left. congruence.
    - destruct Hseir as (_ & Hnone & _). congruence. }
  split; [exact Hcan |]. destruct Hcan as [-> | ->]; reflexivity.
Qed.

Lemma integration_method_canonical_witness :
  match ModelInfo_init (Ex.env_seir (Some "best.current") None)
          (Ex.args_seir (Some "best.current") None PyNone) world0 with
  | (_, inr s) =>
      integration_method s = Some (Ex.str "rk4.jit") /\
      resolve_method (Ex.env_seir (Some "best.current") None) (Ex.str "rk4.jit")
      = inr (Ex.str "rk4.jit")
  | (_, inl _) => False
  end.
Proof.
  destruct (ModelInfo_init (Ex.env_seir (Some "best.current") None)
              (Ex.args_seir (Some "best.current") None PyNone) world0)
    as [w' [e | s]] eqn:H.
  - vm_compute in H. discriminate H.
  - assert (Hm : integration_method s = Some (Ex.str "rk4.jit")).
    { vm_compute in H. inversion H. reflexivity. }
    split; [exact Hm |].
    exact (proj2 (integration_method_canonical _ _ world0 w' s _ H Hm)).
Defined.

(** X3: a configured method that is not a string (a number, a boolean, a
    null, a mapping) is rejected like an unknown string: when the SEIR branch
    runs, the constructor raises, before anything else happens, the
    [ValueError] whose message holds [str] of the value. *)
Theorem method_not_a_string_is_rejected (E : Env) (a : Args) (w : world)
    (got : cfg) :
  a_ti a < a_tf a ->
  enters_seir E a = inr true ->
  configured_method (self_seir_config E a) = Some got ->
  (forall m, got <> CScalar (PyStr m)) ->
  ModelInfo_init E a w
  = (w, inl (ValueError ("Unknown integration method " ++ py_str E got ++ "."))).
Proof.
  intros Hlt Henter Hm Hns.
  apply configured_method_inv in Hm. destruct Hm as (il & Hb & Hm).
  apply init_integration_fails; [assumption | assumption |].
  rewrite (integration_setup_block E _ _ w il Hb), block_method_dict, Hm.
  assert (Hr : resolve_method E got
               = inl (ValueError ("Unknown integration method "
                                  ++ py_str E got ++ "."))).
  { unfold resolve_method.
    destruct got as [[| b | z | f | str] | l]; try reflexivity.
    exfalso. apply (Hns str). reflexivity. }
  rewrite Hr. reflexivity.
Qed.

Lemma method_not_a_string_is_rejected_witness :
  ModelInfo_init (Ex.env [("seir", Ex.seir_int_method)])
    (Ex.args 10 20 (ArgView (Found Ex.seir_int_method)) empty_dict
       false false PyNone 1) world0
  = (world0, inl (ValueError "Unknown integration method 4.")).
Proof.
  apply (method_not_a_string_is_rejected
           (Ex.env [("seir", Ex.seir_int_method)])
           (Ex.args 10 20 (ArgView (Found Ex.seir_int_method)) empty_dict
              false false PyNone 1) world0 (CScalar (PyInt 4)));
    [reflexivity | reflexivity | reflexivity | intros m Hm; discriminate Hm].
Defined.

Lemma resolve_dt_not_none E integ dt d :
  resolve_dt E integ dt = inr d -> is_none d = false.
Proof.
  unfold resolve_dt.
  destruct (view_keys integ) as [e | ikeys]; [discriminate |].
  destruct (key_in "dt" ikeys && is_none dt).
  - destruct (view_item integ "dt") as [e | dv]; [discriminate |].
    destruct (view_get dv) as [e | got]; [discriminate |].
    destruct (py_eval E (py_str E got)) as [e | x]; [discriminate |].
    destruct (py_float E x) as [e | f]; [discriminate |].
    intros H. inversion H. reflexivity.
  - destruct (is_none dt) eqn:Hn; intros H; inversion H; subst; auto.
Qed.

(** X4: when the SEIR branch runs, the step of the descriptor is always a
    float: the default, the evaluated configuration or the argument, each
    passed through [float]; it is never left [None] or as an integer or a
    string. *)
Theorem step_is_a_float (E : Env) (a : Args) (w w' : world) (s : ModelInfo) :
  enters_seir E a = inr true ->
  ModelInfo_init E a w = (w', inr s) ->
  exists f, dt s = PyFloat f.
Proof.
  intros Henter H. apply init_ok in H.
  destruct H as (_ & _ & _ & _ & _ & _ & _ & _ & enter & w1 & He & Hseir & _).
  rewrite Henter in He. inversion He; subst enter.
  destruct Hseir as (md & w0 & p & sd & Hset & _ & _ & Hdt).
  apply integration_setup_inr in Hset. rewrite Hdt.
  destruct (integration_block (self_seir_config E a)) as [b |].
  - destruct Hset as (il & d & _ & _ & _ & Hrd & Hfin).
    apply resolve_dt_not_none in Hrd.
    destruct (finish_dt_given E d (snd md) Hrd Hfin) as (f & _ & Hf).
    exists f. exact Hf.
  - destruct Hset as (_ & _ & Hfin).
    assert (Hn : is_none (if is_none (a_dt a) then PyFloat 2%float else a_dt a)
                 = false).
    { destruct (is_none (a_dt a)) eqn:Hd; [reflexivity | exact Hd]. }
    destruct (finish_dt_given E _ (snd md) Hn Hfin) as (f & _ & Hf).
    exists f. exact Hf.
Qed.

Lemma step_is_a_float_witness :
  match ModelInfo_init (Ex.env_seir None None)
          (Ex.args_seir None None (PyInt 3)) world0 with
  | (_, inr s) => exists f, dt s = PyFloat f
  | (_, inl _) => False
  end.
Proof.
  destruct (ModelInfo_init (Ex.env_seir None None)
              (Ex.args_seir None None (PyInt 3)) world0)
    as [w' [e | s]] eqn:H.
  - vm_compute in H. discriminate H.
  - exact (step_is_a_float (Ex.env_seir None None)
             (Ex.args_seir None None (PyInt 3)) world0 w' s eq_refl H).
Defined.

(** X5: when the SEIR branch does not run (no [seir] section in the
    process-wide configuration, or neither a SEIR nor a parameters
    configuration that is true), the descriptor has no integration method,
    no [Parameters], [SeedingAndIC] or [Compartments], its step is the [dt]
    argument untouched ([None] when none was given), and nothing is logged:
    the trace grows by the output step alone. *)
Theorem without_seir_branch (E : Env) (a : Args) (w w' : world) (s : ModelInfo) :
  enters_seir E a = inr false ->
  ModelInfo_init E a w = (w', inr s) ->
  integration_method s = None /\ dt s = a_dt a /\
  parameters s = None /\ seedingAndIC s = None /\ compartments s = None /\
  forall ev, In ev (trace w') -> In ev (trace w) \/ forall m, ev <> LogInfo m.
Proof.
  intros Henter H. apply init_inv in H.
  destruct H as (enter & method & dt' & p & sd & c & w1 & rin & wi & rout & wo
                 & te & He & Hseir & Hout & Hin & Hrout & Hm & Hdt & Hp & Hsd
                 & Hc & _ & _ & _ & _ & Hos & _).
  rewrite Henter in He. inversion He; subst enter.
  destruct Hseir as (-> & -> & -> & -> & -> & ->).
  repeat (split; [assumption |]).
  apply opt_run_id_step in Hin. destruct Hin as (Ht1 & _).
  apply opt_run_id_step in Hrout. destruct Hrout as (Ht2 & _).
  apply (output_setup_inr E a _ _ _ _ _ Hout) in Hos.
  destruct Hos as (Ht & _). rewrite Ht, Ht2, Ht1.
  intros ev Hev. apply in_app_or in Hev. destruct Hev as [Hev | Hev].
  - left. exact Hev.
  - right. intros m ->.
    destruct (a_write_csv a || a_write_parquet a); [| contradiction].
    apply in_app_or in Hev. destruct Hev as [Hev | Hev].
    + destruct (view_exists (config_item E "seir")); [| contradiction].
      apply in_map_iff in Hev. destruct Hev as (d & Hd & _). discriminate Hd.
    + destruct (a_write_parquet a && a_write_csv a); [| contradiction].
      destruct Hev as [Hev | []]. discriminate Hev.
Qed.

Lemma without_seir_branch_witness :
  match ModelInfo_init Ex.env_empty (Ex.args_seir (Some "rk4") (Some "1/4") PyNone)
          world0 with
  | (_, inr s) =>
      integration_method s = None /\ dt s = PyNone /\
      parameters s = None /\ seedingAndIC s = None /\ compartments s = None
  | (_, inl _) => False
  end.
Proof.
  destruct (ModelInfo_init Ex.env_empty
              (Ex.args_seir (Some "rk4") (Some "1/4") PyNone) world0)
    as [w' [e | s]] eqn:H.
  - vm_compute in H. discriminate H.
  - destruct (without_seir_branch Ex.env_empty
                (Ex.args_seir (Some "rk4") (Some "1/4") PyNone) world0 w' s
                eq_refl H) as (H1 & H2 & H3 & H4 & H5 & _).
    repeat split; assumption.
Defined.

(** ** The collaborators *)

Lemma enters_seir_self_not_none E a :
  enters_seir E a = inr true -> arg_is_none (self_seir_config E a) = false.
Proof.
  unfold enters_seir, self_seir_config.
  destruct (view_exists (config_item E "seir")); [| discriminate].
  intros _. destruct (a_seir_config a); reflexivity.
Qed.

Lemma seir_collaborators_inr E a sc w w' p sd c :
  arg_is_none sc = false ->
  seir_collaborators E a sc w = (w', inr (p, sd, c)) ->
  p = mkParameters (a_parameters_config a) (a_ti a) (a_tf a)
                   (sp_subpop_names (a_subpop_setup a)) /\
  Parameters_raises E p = None /\
  sd = mkSeedingAndIC (a_seeding_config a) (a_initial_conditions_config a) /\
  SeedingAndIC_raises E sd = None /\
  c = (if view_exists (config_item E "compartments")
       then Some (mkCompartments sc (config_item E "compartments")) else None) /\
  (view_exists (config_item E "compartments") = true ->
   Compartments_raises E (mkCompartments sc (config_item E "compartments")) = None).
Proof.
  intros Hsc. unfold seir_collaborators. rewrite Hsc, andb_true_r.
  unfold bind, call, raise, ret.
  destruct (Parameters_raises E _) eqn:Hp; [discriminate |].
  destruct (SeedingAndIC_raises E _) eqn:Hs; [discriminate |].
  destruct (view_exists (config_item E "compartments")).
  - destruct (Compartments_raises E _) eqn:Hc; [discriminate |].
    intros H. inversion H; subst. repeat split; assumption.
  - intros H. inversion H; subst. repeat split; try assumption.
    intros Hc. discriminate Hc.
Qed.

(** X6: when the SEIR branch runs, the descriptor holds the collaborators
    built from what the constructor was given: [Parameters] from the
    parameters configuration, the two dates and the subpopulation names,
    [SeedingAndIC] from the seeding and initial-conditions configurations,
    and, exactly when the process-wide configuration has a [compartments]
    section, [Compartments] from [self.seir_config] and that section; none
    of their constructors raised. *)
Theorem seir_branch_builds_collaborators (E : Env) (a : Args) (w w' : world)
    (s : ModelInfo) :
  enters_seir E a = inr true ->
  ModelInfo_init E a w = (w', inr s) ->
  let p := mkParameters (a_parameters_config a) (a_ti a) (a_tf a)
                        (sp_subpop_names (a_subpop_setup a)) in
  let sd := mkSeedingAndIC (a_seeding_config a) (a_initial_conditions_config a) in
  let c := mkCompartments (seir_config s) (config_item E "compartments") in
  parameters s = Some p /\ Parameters_raises E p = None /\
  seedingAndIC s = Some sd /\ SeedingAndIC_raises E sd = None /\
  compartments s = (if view_exists (config_item E "compartments")
                    then Some c else None) /\
  (view_exists (config_item E "compartments") = true ->
   Compartments_raises E c = None).
Proof.
  intros Henter H p sd c.
  assert (Hsc : seir_config s = self_seir_config E a).
  { apply init_ok in H. destruct H as (_ & _ & _ & _ & _ & Hsc & _). exact Hsc. }
  apply init_inv in H.
  destruct H as (enter & method & dt' & p' & sd' & c' & w1 & rin & wi & rout & wo
                 & te & He & Hseir & _ & _ & _ & _ & _ & Hp & Hsd & Hc & _).
  rewrite Henter in He. inversion He; subst enter.
  destruct Hseir as (md & w0 & p0 & sd0 & _ & Hcol & _ & _ & -> & ->).
  apply seir_collaborators_inr in Hcol;
    [| apply enters_seir_self_not_none; exact Henter].
  destruct Hcol as (-> & Hpr & -> & Hsr & -> & Hcr).
  unfold c. rewrite Hsc. repeat split; assumption.
Qed.

Lemma seir_branch_builds_collaborators_witness :
  match ModelInfo_init Ex.env_compartments (Ex.args_plain 10 20) world0 with
  | (_, inr s) =>
      parameters s
      = Some (mkParameters empty_dict 10 20 ["a"; "b"]) /\
      compartments s
      = Some (mkCompartments (ArgView (Found Ex.seir_plain))
                (Found (CDict [("infection_stage", Ex.str "S,E,I,R")])))
  | (_, inl _) => False
  end.
Proof.
  destruct (ModelInfo_init Ex.env_compartments (Ex.args_plain 10 20) world0)
    as [w' [e | s]] eqn:H.
  - vm_compute in H. discriminate H.
  - destruct (seir_branch_builds_collaborators Ex.env_compartments
                (Ex.args_plain 10 20) world0 w' s eq_refl H)
      as (Hp & _ & _ & _ & Hc & _).
    split; [exact Hp |].
    assert (Hsc : seir_config s = ArgView (Found Ex.seir_plain)).
    { vm_compute in H. inversion H. reflexivity. }
    rewrite Hsc in Hc. exact Hc.
Defined.

(** X7: an exception of a collaborator's constructor is the exception of
    [ModelInfo]: once the integration policy is resolved, if [Parameters],
    [SeedingAndIC] or (with a [compartments] section) [Compartments] raises,
    the constructor raises the same exception and nothing more is done. *)
Theorem collaborator_exception_propagates (E : Env) (a : Args) (w w0 w1 : world)
    (md : option cfg * scalar) (e : exn) :
  a_ti a < a_tf a ->
  enters_seir E a = inr true ->
  integration_setup E (self_seir_config E a) (a_dt a) w = (w0, inr md) ->
  seir_collaborators E a (self_seir_config E a) w0 = (w1, inl e) ->
  ModelInfo_init E a w = (w0, inl e) /\
  (Parameters_raises E (mkParameters (a_parameters_config a) (a_ti a) (a_tf a)
                          (sp_subpop_names (a_subpop_setup a))) = Some e
   \/ SeedingAndIC_raises E (mkSeedingAndIC (a_seeding_config a)
                               (a_initial_conditions_config a)) = Some e
   \/ Compartments_raises E (mkCompartments (self_seir_config E a)
                               (config_item E "compartments")) = Some e).
Proof.
  intros Hlt Henter Hset Hcol.
  assert (Hw : w1 = w0) by (eapply seir_collaborators_world; exact Hcol).
  subst w1. split.
  - unfold ModelInfo_init. apply Z.leb_gt in Hlt. rewrite Hlt.
    unfold bind at 1. unfold lift at 1. rewrite Henter.
    unfold bind at 1. unfold bind at 1. rewrite Hset.
    unfold bind at 1. rewrite Hcol. reflexivity.
  - unfold seir_collaborators, bind, call, raise, ret in Hcol.
    destruct (Parameters_raises E _) as [e1 |] eqn:Hp.
    + left. inversion Hcol. reflexivity.
    + destruct (SeedingAndIC_raises E _) as [e2 |] eqn:Hs.
      * right. left. inversion Hcol. reflexivity.
      * destruct (view_exists (config_item E "compartments")
                  && negb (arg_is_none (self_seir_config E a)));
          [| discriminate].
        destruct (Compartments_raises E _) as [e3 |] eqn:Hc; [| discriminate].
        right. right. inversion Hcol. reflexivity.
Qed.

Lemma collaborator_exception_propagates_witness :
  ModelInfo_init Ex.env_parameters_raise (Ex.args_plain 10 20) world0
  = (mkWorld [LogInfo msg_default_method] 0, inl (External "KeyError" "gamma")).
Proof.
  exact (proj1 (collaborator_exception_propagates Ex.env_parameters_raise
                  (Ex.args_plain 10 20) world0
                  (mkWorld [LogInfo msg_default_method] 0)
                  (mkWorld [LogInfo msg_default_method] 0)
                  (Some (Ex.str "rk4.jit"), PyFloat 2%float)
                  (External "KeyError" "gamma")
                  eq_refl eq_refl eq_refl eq_refl)).
Defined.

(** ** The effects of a construction *)

(** X8: a construction that returns with an output format requested, under
    a process-wide configuration with a [seir] section, has created the
    directories of the file types [seir], [spar] and [snpi] under the output
    run identifier and prefix: [os.makedirs] was called on each, in this
    order and one after the other, and raised on none. *)
Theorem seir_directories_created (E : Env) (a : Args) (w w' : world)
    (s : ModelInfo) :
  a_write_csv a || a_write_parquet a = true ->
  view_exists (config_item E "seir") = true ->
  ModelInfo_init E a w = (w', inr s) ->
  (exists before after,
      trace w' = (before
                  ++ map Makedirs (seir_dirs E (out_run_id s) (out_prefix s))
                  ++ after)%list) /\
  Forall (fun d => os_makedirs E d = None)
         (seir_dirs E (out_run_id s) (out_prefix s)).
Proof.
  intros Hfmt Hseir H. apply init_inv in H.
  destruct H as (enter & method & dt' & p & sd & c & w1 & rin & wi & rout & wo
                 & te & _ & _ & Hout & _ & _ & _ & _ & _ & _ & _ & _
                 & _ & _ & _ & Hos & _).
  apply (output_setup_inr E a _ _ _ _ _ Hout) in Hos.
  destruct Hos as (Ht & _ & _ & Hf). split; [| exact (Hf Hfmt Hseir)].
  rewrite Hfmt, Hseir in Ht.
  exists (trace wo).
  exists (if a_write_parquet a && a_write_csv a then [Print msg_confused] else []).
  exact Ht.
Qed.

Lemma seir_directories_created_witness :
  match ModelInfo_init Ex.env_plain (Ex.args_write true true 1) world0 with
  | (w', inr s) =>
      seir_dirs Ex.env_plain (out_run_id s) (out_prefix s) = ["seir"; "spar"; "snpi"]
      /\ exists before after,
           trace w' = (before
                       ++ map Makedirs
                            (seir_dirs Ex.env_plain (out_run_id s) (out_prefix s))
                       ++ after)%list
  | (_, inl _) => False
  end.
Proof.
  destruct (ModelInfo_init Ex.env_plain (Ex.args_write true true 1) world0)
    as [w' [e | s]] eqn:H.
  - vm_compute in H. discriminate H.
  - split.
    + vm_compute in H. inversion H. reflexivity.
    + exact (proj1 (seir_directories_created Ex.env_plain
                      (Ex.args_write true true 1) world0 w' s
                      eq_refl eq_refl H)).
Defined.

(** ** The run identity *)

Lemma output_setup_calls E a r p w w' te :
  output_setup E a r p w = (w', inr te) -> run_id_calls w' = run_id_calls w.
Proof.
  unfold output_setup. destruct (a_write_csv a || a_write_parquet a).
  - intros H. bind_inv H as b wb Hb. apply lift_inr in Hb. destruct Hb as [_ ->].
    bind_inv H as u wu Hdirs. apply make_dirs_inr in Hdirs.
    destruct Hdirs as (_ & Hn & _).
    bind_inv H as u' wu' Hwarn.
    apply ret_inr in H. destruct H as [_ ->]. rewrite <- Hn.
    destruct (a_write_parquet a && a_write_csv a).
    + unfold emit in Hwarn. inversion Hwarn. reflexivity.
    + apply ret_inr in Hwarn. destruct Hwarn as [_ ->]. reflexivity.
  - intros H. apply ret_inr in H. destruct H as [_ ->]. reflexivity.
Qed.

(** X9: the run identity of a descriptor.  A given run identifier or prefix
    is kept as it is.  A missing identifier is generated by
    [file_paths.run_id()], the input one first, so that the two are
    generated by two successive calls; a missing prefix is
    [model_output/{setup_name}/{in_run_id}/] on the input side and
    [model_output/{setup_name}/{npi_scenario}/{out_run_id}/] on the output
    side; and [run_id()] is called once per missing identifier, not more. *)
Theorem run_identity (E : Env) (a : Args) (w w' : world) (s : ModelInfo) :
  ModelInfo_init E a w = (w', inr s) ->
  in_run_id s = match a_in_run_id a with
                | Some r => r
                | None => run_id E (run_id_calls w)
                end /\
  out_run_id s = match a_out_run_id a with
                 | Some r => r
                 | None => run_id E (run_id_calls w
                                     + match a_in_run_id a with
                                       | None => 1
                                       | Some _ => 0
                                       end)%nat
                 end /\
  in_prefix s = match a_in_prefix a with
                | Some x => x
                | None => "model_output/" ++ a_setup_name a ++ "/"
                          ++ in_run_id s ++ "/"
                end /\
  out_prefix s = match a_out_prefix a with
                 | Some x => x
                 | None => "model_output/" ++ a_setup_name a ++ "/"
                           ++ fmt_opt (a_npi_scenario a) ++ "/"
                           ++ out_run_id s ++ "/"
                 end /\
  run_id_calls w' = (run_id_calls w + generated_ids a)%nat.
Proof.
  intros H. apply init_inv in H.
  destruct H as (enter & method & dt' & p & sd & c & w1 & rin & wi & rout & wo
                 & te & He & Hseir & Hout & Hin & Hrout & _ & _ & _ & _ & _
                 & Hri & Hro & Hpi & Hpo & Hos & _).
  assert (Hw1 : run_id_calls w1 = run_id_calls w).
  { destruct enter.
    - destruct Hseir as (md & w0 & p0 & sd0 & Hset & Hcol & _).
      apply seir_collaborators_world in Hcol. subst w1.
      eapply integration_setup_calls. exact Hset.
    - destruct Hseir as (-> & _). reflexivity. }
  apply opt_run_id_step in Hin. destruct Hin as (_ & Hrin & Hci).
  apply opt_run_id_step in Hrout. destruct Hrout as (_ & Hrout & Hco).
  apply output_setup_calls in Hos.
  rewrite Hpi, Hpo, Hri, Hro, Hos, Hco, Hci, Hw1. subst rin rout.
  rewrite Hci, Hw1. unfold generated_ids.
  repeat split; try reflexivity. lia.
Qed.

Lemma run_identity_witness :
  match ModelInfo_init Ex.env_plain Ex.args_generated world0 with
  | (w', inr s) =>
      in_run_id s = "run0" /\ out_run_id s = "run1" /\
      in_prefix s = "model_output/minimal/run0/" /\
      out_prefix s = "model_output/minimal/inference/run1/" /\
      run_id_calls w' = 2%nat
  | (_, inl _) => False
  end.
Proof.
  destruct (ModelInfo_init Ex.env_plain Ex.args_generated world0)
    as [w' [e | s]] eqn:H.
  - vm_compute in H. discriminate H.
  - destruct (run_identity Ex.env_plain Ex.args_generated world0 w' s H)
      as (H1 & H2 & H3 & H4 & H5).
    simpl in H1, H2, H3, H4, H5. rewrite H1 in H3. rewrite H2 in H4.
    repeat split; assumption.
Defined.

(** ** File names of a descriptor with an output format *)

(** X10: on a descriptor constructed with CSV or Parquet requested,
    [get_filename] never raises: an empty [extension_override] takes the
    extension of the descriptor ([parquet] when Parquet was requested, else
    [csv]) and a non-empty one replaces it. *)
Theorem get_filename_with_format (E : Env) (a : Args) (w w' : world)
    (s : ModelInfo) (ftype : string) (sim_id : Z) (input : bool) (ext : string) :
  a_write_csv a || a_write_parquet a = true ->
  ModelInfo_init E a w = (w', inr s) ->
  get_filename E s ftype sim_id input ext =
  inr (create_file_name E
         (if input then in_run_id s else out_run_id s)
         (if input then in_prefix s else out_prefix s)
         (sim_id + first_sim_index s - 1) ftype
         (if String.eqb ext ""
          then (if a_write_parquet a then "parquet" else "csv")
          else ext)).
Proof.
  intros Hfmt H. apply init_extension in H. destruct H as [Hext _].
  unfold get_filename, self_extension. rewrite Hext.
  destruct (String.eqb ext ""); simpl.
  - destruct (a_write_parquet a); simpl.
    + destruct input; reflexivity.
    + destruct (a_write_csv a); [| discriminate Hfmt].
      destruct input; reflexivity.
  - destruct input; reflexivity.
Qed.

Lemma get_filename_with_format_witness :
  match ModelInfo_init Ex.env_plain (Ex.args_write true false 1) world0 with
  | (_, inr s) =>
      get_filename Ex.env_plain s "seir" 7 true "" = inr "000000007.105.seir.csv"
      /\ get_filename Ex.env_plain s "seir" 7 true "parquet"
         = inr "000000007.105.seir.parquet"
  | (_, inl _) => False
  end.
Proof.
  destruct (ModelInfo_init Ex.env_plain (Ex.args_write true false 1) world0)
    as [w' [e | s]] eqn:H.
  - vm_compute in H. discriminate H.
  - rewrite (get_filename_with_format Ex.env_plain (Ex.args_write true false 1)
               world0 w' s "seir" 7 true "" eq_refl H).
    rewrite (get_filename_with_format Ex.env_plain (Ex.args_write true false 1)
               world0 w' s "seir" 7 true "parquet" eq_refl H).
    vm_compute in H. inversion H. split; reflexivity.
Defined.

(** ** Distinct simulations, distinct files *)

Lemma app_inv_head_string (s x y : string) : s ++ x = s ++ y -> x = y.
Proof.
  induction s as [| c s IH]; simpl; intros H; [exact H |].
  inversion H. apply IH. assumption.
Qed.

Lemma app_inv_tail_string (x y t : string) : x ++ t = y ++ t -> x = y.
Proof.
  revert y. induction x as [| c x IH]; intros y H.
  - destruct y as [| d y]; [reflexivity |]. exfalso.
    apply (f_equal String.length) in H. simpl in H.
    rewrite length_app in H. lia.
  - destruct y as [| d y].
    + exfalso. apply (f_equal String.length) in H. simpl in H.
      rewrite length_app in H. lia.
    + simpl in H. inversion H. f_equal. apply IH. assumption.
Qed.

(** The digits of a natural number under any padding denote the number. *)
Lemma zfill_decodes n z :
  0 <= z -> decode_index (zfill n (string_of_Z z)) = Some z.
Proof.
  intros Hz. destruct (string_of_Z_nonneg z Hz) as (Hne & d & Hd & Hzd).
  unfold zfill.
  destruct (uint_of_zeros (n - String.length (string_of_Z z)) _ _ Hd)
    as (d' & Hd' & Hz').
  unfold decode_index, NilZero.uint_of_string.
  assert (Hnz := zeros_app_nonempty (n - String.length (string_of_Z z)) _ Hne).
  destruct (zeros (n - String.length (string_of_Z z)) ++ string_of_Z z) eqn:Hs;
    [contradiction |].
  rewrite Hd'. simpl. congruence.
Qed.

Lemma decode_minus t : decode_index (String "-" t) = None.
Proof.
  unfold decode_index, NilZero.uint_of_string. simpl.
  destruct (NilEmpty.uint_of_string t); reflexivity.
Qed.

(** The format [09d] tells any two integers apart. *)
Lemma format_09d_injective z1 z2 : format_09d z1 = format_09d z2 -> z1 = z2.
Proof.
  unfold format_09d.
  destruct (Z.ltb_spec z1 0) as [H1 | H1]; destruct (Z.ltb_spec z2 0) as [H2 | H2];
    intros H.
  - simpl in H. inversion H as [Ht].
    apply (f_equal decode_index) in Ht.
    rewrite !zfill_decodes in Ht by lia. inversion Ht. lia.
  - exfalso. apply (f_equal decode_index) in H.
    rewrite zfill_decodes in H by lia. simpl in H.
    rewrite decode_minus in H. discriminate H.
  - exfalso. apply (f_equal decode_index) in H.
    rewrite zfill_decodes in H by lia. simpl in H.
    rewrite decode_minus in H. discriminate H.
  - apply (f_equal decode_index) in H.
    rewrite !zfill_decodes in H by lia. inversion H. reflexivity.
Qed.

(** X11: under the file-name grammar, two simulation indices of one
    descriptor never share a file: when [get_filename] gives the same path
    for the same file type, direction and extension, the indices are
    equal. *)
Theorem distinct_simulations_distinct_files (E : Env) (s : ModelInfo)
    (ftype : string) (i j : Z) (input : bool) (ext path : string) :
  names_by_grammar E ->
  get_filename E s ftype i input ext = inr path ->
  get_filename E s ftype j input ext = inr path ->
  i = j.
Proof.
  intros [dir Hdir] Hi Hj.
  apply get_filename_inr in Hi. destruct Hi as (xi & Hxi & Hpi).
  apply get_filename_inr in Hj. destruct Hj as (xj & Hxj & Hpj).
  assert (Hx : xi = xj) by congruence. subst xj.
  rewrite Hdir in Hpi, Hpj. rewrite Hpi in Hpj.
  apply app_inv_head_string in Hpj.
  apply app_inv_tail_string in Hpj.
  apply format_09d_injective in Hpj. lia.
Qed.

Lemma distinct_simulations_distinct_files_witness :
  match ModelInfo_init Ex.env_plain (Ex.args_write false true 100) world0 with
  | (_, inr s) =>
      forall j,
        get_filename Ex.env_plain s "hnpi" j false ""
        = inr "000000100.105.hnpi.parquet" -> 1 = j
  | (_, inl _) => False
  end.
Proof.
  destruct (ModelInfo_init Ex.env_plain (Ex.args_write false true 100) world0)
    as [w' [e | s]] eqn:H.
  - vm_compute in H. discriminate H.
  - intros j Hj.
    apply (distinct_simulations_distinct_files Ex.env_plain s "hnpi" 1 j false ""
             "000000100.105.hnpi.parquet" (spec_names_by_grammar _)); [| exact Hj].
    vm_compute in H. inversion H. reflexivity.
Defined.

(** ** Writing, then reading *)

(** X12: on a descriptor constructed with one run identifier and one prefix
    for both sides, what [write_simID] writes (to the output side, its
    default) is what [read_simID] reads (from the input side, its default):
    when [write_simID] returns a file name, [read_simID] with the same file
    type, index and extension reads that very file, and the input and the
    output file names are the same. *)
Theorem write_then_read_same_file (E : Env) (a : Args) (w w' : world)
    (s : ModelInfo) (r p ftype : string) (sim_id : Z) (df : DataFrame E)
    (ext fname : string) :
  a_in_run_id a = Some r -> a_out_run_id a = Some r ->
  a_in_prefix a = Some p -> a_out_prefix a = Some p ->
  ModelInfo_init E a w = (w', inr s) ->
  write_simID E s ftype sim_id df false ext = inr fname ->
  read_simID E s ftype sim_id true ext = read_df E fname /\
  get_input_filename E s ftype sim_id ext = inr fname /\
  get_output_filename E s ftype sim_id ext = inr fname.
Proof.
  intros Hri Hro Hpi Hpo H Hw. apply init_inv in H.
  destruct H as (enter & method & dt' & p0 & sd & c & w1 & rin & wi & rout & wo
                 & te & _ & _ & _ & Hin & Hrout & _ & _ & _ & _ & _
                 & Hsri & Hsro & Hspi & Hspo & _).
  rewrite Hri in Hin. rewrite Hro in Hrout.
  apply ret_inr in Hin. destruct Hin as [-> _].
  apply ret_inr in Hrout. destruct Hrout as [-> _].
  rewrite Hpi in Hspi. rewrite Hpo in Hspo.
  assert (Hout : get_filename E s ftype sim_id false ext = inr fname).
  { unfold write_simID in Hw.
    destruct (get_filename E s ftype sim_id false ext) as [e | f]; [discriminate |].
    destruct (write_df E f df); [discriminate |]. exact Hw. }
  assert (Hinp : get_filename E s ftype sim_id true ext = inr fname).
  { unfold get_filename in *. rewrite Hsri, Hspi. rewrite Hsro, Hspo in Hout.
    exact Hout. }
  unfold read_simID, get_input_filename, get_output_filename.
  rewrite Hinp. repeat split. exact Hout.
Qed.

Lemma write_then_read_same_file_witness :
  match ModelInfo_init Ex.env_plain (Ex.args_write false true 1) world0 with
  | (_, inr s) =>
      read_simID Ex.env_plain s "hnpi" 1 true ""
      = read_df Ex.env_plain "000000001.105.hnpi.parquet"
  | (_, inl _) => False
  end.
Proof.
  destruct (ModelInfo_init Ex.env_plain (Ex.args_write false true 1) world0)
    as [w' [e | s]] eqn:H.
  - vm_compute in H. discriminate H.
  - refine (proj1 (write_then_read_same_file Ex.env_plain
                     (Ex.args_write false true 1) world0 w' s "105" "" "hnpi" 1
                     [] "" "000000001.105.hnpi.parquet"
                     eq_refl eq_refl eq_refl eq_refl H _)).
    vm_compute in H. inversion H. reflexivity.
Defined.

(** X13: with both prefixes left to their defaults, a descriptor whose input
    and output run identifiers are equal still has two different prefixes:
    the output prefix has the scenario segment that the input prefix
    lacks. *)
Theorem default_prefixes_differ (E : Env) (a : Args) (w w' : world)
    (s : ModelInfo) :
  a_in_prefix a = None -> a_out_prefix a = None ->
  ModelInfo_init E a w = (w', inr s) ->
  in_run_id s = out_run_id s ->
  in_prefix s <> out_prefix s /\
  (String.length (out_prefix s)
   = String.length (in_prefix s)
     + String.length (fmt_opt (a_npi_scenario a)) + 1)%nat.
Proof.
  intros Hpi Hpo H Heq. apply init_inv in H.
  destruct H as (enter & method & dt' & p0 & sd & c & w1 & rin & wi & rout & wo
                 & te & _ & _ & _ & _ & _ & _ & _ & _ & _ & _
                 & Hsri & Hsro & Hspi & Hspo & _).
  rewrite Hpi in Hspi. rewrite Hpo in Hspo.
  assert (Hr : rin = rout) by congruence. subst rout.
  assert (Hlen : (String.length (out_prefix s)
                  = String.length (in_prefix s)
                    + String.length (fmt_opt (a_npi_scenario a)) + 1)%nat).
  { rewrite Hspi, Hspo, Hr. repeat (rewrite length_app || simpl). lia. }
  split; [| exact Hlen].
  intros Hc. rewrite Hc in Hlen. lia.
Qed.

Lemma default_prefixes_differ_witness :
  match ModelInfo_init Ex.env_plain Ex.args_shared_id world0 with
  | (_, inr s) =>
      in_prefix s = "model_output/minimal/105/" /\
      out_prefix s = "model_output/minimal/inference/105/" /\
      in_prefix s <> out_prefix s
  | (_, inl _) => False
  end.
Proof.
  destruct (ModelInfo_init Ex.env_plain Ex.args_shared_id world0)
    as [w' [e | s]] eqn:H.
  - vm_compute in H. discriminate H.
  - assert (Hs : in_prefix s = "model_output/minimal/105/" /\
                 out_prefix s = "model_output/minimal/inference/105/" /\
                 in_run_id s = out_run_id s).
    { vm_compute in H. inversion H. repeat split. }
    destruct Hs as (H1 & H2 & H3). split; [exact H1 |]. split; [exact H2 |].
    exact (proj1 (default_prefixes_differ Ex.env_plain Ex.args_shared_id
                    world0 w' s eq_refl eq_refl H H3)).
Defined.

(** ** The SEIR configuration of a descriptor *)

(** X14: the SEIR configuration of a descriptor is the [seir_config]
    argument, except that a missing argument ([None]) is replaced by the
    [seir] section of the process-wide configuration when there is one.
    That replacement alone does not start the SEIR branch, which then runs
    exactly when the parameters configuration is true: with the default,
    empty one, the descriptor has a SEIR configuration and no integration
    method. *)
Theorem seir_config_fallback (E : Env) (a : Args) (w w' : world) (s : ModelInfo) :
  ModelInfo_init E a w = (w', inr s) ->
  (a_seir_config a <> ArgNone -> seir_config s = a_seir_config a) /\
  (a_seir_config a = ArgNone ->
   seir_config s = (if view_exists (config_item E "seir")
                    then ArgView (config_item E "seir") else ArgNone) /\
   (view_exists (config_item E "seir") = true ->
    enters_seir E a = arg_truthy (a_parameters_config a)) /\
   (arg_truthy (a_parameters_config a) = inr false ->
    integration_method s = None /\ dt s = a_dt a)).
Proof.
  intros H. assert (Hok := init_ok _ _ _ _ _ H).
  destruct Hok as (_ & _ & _ & _ & _ & Hsc & _ & _ & enter & w1 & He & Hseir & _).
  rewrite Hsc. unfold self_seir_config. split.
  - intros Hn. destruct (a_seir_config a); [contradiction | reflexivity].
  - intros Hn. rewrite Hn. simpl. split; [| split].
    + destruct (view_exists (config_item E "seir")); reflexivity.
    + intros Hex. unfold enters_seir. rewrite Hex, Hn. reflexivity.
    + intros Hp.
      assert (Hf : enter = false).
      { unfold enters_seir in He. rewrite Hn in He. simpl in He.
        destruct (view_exists (config_item E "seir")); congruence. }
      subst enter. destruct Hseir as (_ & Hm & Hd & _). split; assumption.
Qed.

Lemma seir_config_fallback_witness :
  match ModelInfo_init Ex.env_plain Ex.args_no_seir_config world0 with
  | (_, inr s) =>
      seir_config s = ArgView (Found Ex.seir_plain) /\
      integration_method s = None /\ dt s = PyNone
  | (_, inl _) => False
  end.
Proof.
  destruct (ModelInfo_init Ex.env_plain Ex.args_no_seir_config world0)
    as [w' [e | s]] eqn:H.
  - vm_compute in H. discriminate H.
  - destruct (proj2 (seir_config_fallback Ex.env_plain Ex.args_no_seir_config
                       world0 w' s H) eq_refl) as (Hsc & _ & Hpol).
    destruct (Hpol eq_refl) as (Hm & Hd).
    repeat split; assumption.
Defined.

(** ** An explicit step and the configured one *)

Lemma bind_cong {A B} (m1 m2 : M A) (k1 k2 : A -> M B) w :
  m1 w = m2 w -> (forall a w0, k1 a w0 = k2 a w0) ->
  bind m1 k1 w = bind m2 k2 w.
Proof.
  intros Hm Hk. unfold bind. rewrite Hm.
  destruct (m2 w) as [w0 [e | a]]; [reflexivity | apply Hk].
Qed.

Lemma resolve_dt_given E f integ dt :
  is_none dt = false ->
  resolve_dt (with_eval E f) integ dt = resolve_dt E integ dt.
Proof.
  intros Hn. unfold resolve_dt.
  destruct (view_keys integ) as [e | ikeys]; [reflexivity |].
  rewrite Hn, andb_false_r. reflexivity.
Qed.

Lemma integration_setup_given E f sc dt w :
  is_none dt = false ->
  integration_setup (with_eval E f) sc dt w = integration_setup E sc dt w.
Proof.
  intros Hn. unfold integration_setup.
  apply bind_cong; [reflexivity |]. intros keys w0.
  apply bind_cong; [| reflexivity].
  destruct (key_in "integration" keys); [| reflexivity].
  apply bind_cong; [reflexivity |]. intros integ w1.
  apply bind_cong; [reflexivity |]. intros method w2.
  apply bind_cong; [| reflexivity].
  unfold lift. rewrite (resolve_dt_given E f integ dt Hn). reflexivity.
Qed.

Lemma make_dirs_with_eval E f r p ftypes w :
  make_dirs (with_eval E f) r p ftypes w = make_dirs E r p ftypes w.
Proof.
  revert w. induction ftypes as [| ft rest IH]; intros w; simpl; [reflexivity |].
  apply bind_cong; [reflexivity |]. intros u w0.
  apply bind_cong; [reflexivity |]. intros u' w1. apply IH.
Qed.

Lemma output_setup_with_eval E f a r p w :
  output_setup (with_eval E f) a r p w = output_setup E a r p w.
Proof.
  unfold output_setup.
  destruct (a_write_csv a || a_write_parquet a); [| reflexivity].
  apply bind_cong; [reflexivity |]. intros b w0.
  apply bind_cong; [| reflexivity]. apply make_dirs_with_eval.
Qed.

(** X15: with an explicit [dt] argument the constructor never evaluates the
    configured [dt]: the whole construction, result and effects, is the same
    under any [eval], so that a configured step that cannot be evaluated
    does no harm once the argument is given. *)
Theorem explicit_dt_never_evaluates (E : Env) (f : string -> result scalar)
    (a : Args) (w : world) :
  is_none (a_dt a) = false ->
  ModelInfo_init (with_eval E f) a w = ModelInfo_init E a w.
Proof.
  intros Hn. unfold ModelInfo_init.
  destruct (a_tf a <=? a_ti a); [reflexivity |].
  apply bind_cong; [reflexivity |]. intros enter w0.
  apply bind_cong.
  - destruct enter; [| reflexivity].
    apply bind_cong; [| reflexivity].
    apply integration_setup_given. exact Hn.
  - intros [[[[method dt'] p] sd] c] w1.
    apply bind_cong; [reflexivity |]. intros b w2.
    apply bind_cong; [reflexivity |]. intros npi w3.
    apply bind_cong; [reflexivity |]. intros rin w4.
    apply bind_cong; [reflexivity |]. intros rout w5.
    apply bind_cong; [| reflexivity]. apply output_setup_with_eval.
Qed.

Lemma explicit_dt_never_evaluates_witness :
  ModelInfo_init
    (with_eval (Ex.env_seir (Some "rk4") (Some "1/"))
       (fun _ => inl (External "SyntaxError" "invalid syntax")))
    (Ex.args_seir (Some "rk4") (Some "1/") (PyFloat 1%float)) world0
  = ModelInfo_init (Ex.env_seir (Some "rk4") (Some "1/"))
      (Ex.args_seir (Some "rk4") (Some "1/") (PyFloat 1%float)) world0.
Proof.
  apply explicit_dt_never_evaluates. reflexivity.
Defined.

(** ** The time stamp and the extension *)

(** X16: a descriptor has a time stamp exactly when it has an extension,
    that is, exactly when CSV or Parquet output was requested; the time
    stamp is then the time of the construction. *)
Theorem timestamp_with_extension (E : Env) (a : Args) (w w' : world)
    (s : ModelInfo) :
  ModelInfo_init E a w = (w', inr s) ->
  timestamp s = (if a_write_csv a || a_write_parquet a
                 then Some (now_stamp E) else None) /\
  (timestamp s = None <-> extension s = None).
Proof.
  intros H. assert (Hext := init_extension _ _ _ _ _ H).
  destruct Hext as [Hext _]. apply init_inv in H.
  destruct H as (enter & method & dt' & p0 & sd & c & w1 & rin & wi & rout & wo
                 & te & _ & _ & Hout & _ & _ & _ & _ & _ & _ & _
                 & _ & _ & _ & _ & Hos & Hts & _).
  apply (output_setup_inr E a _ _ _ _ _ Hout) in Hos.
  destruct Hos as (_ & _ & Hfst & _). rewrite Hts, Hfst, Hext.
  split; [reflexivity |].
  destruct (a_write_csv a); destruct (a_write_parquet a); simpl;
    split; intros Hc; first [reflexivity | discriminate Hc].
Qed.

Lemma timestamp_with_extension_witness :
  match ModelInfo_init Ex.env_plain (Ex.args_write true false 1) world0 with
  | (_, inr s) => timestamp s = Some "20240101-000000"
                  /\ (timestamp s = None <-> extension s = None)
  | (_, inl _) => False
  end.
Proof.
  destruct (ModelInfo_init Ex.env_plain (Ex.args_write true false 1) world0)
    as [w' [e | s]] eqn:H.
  - vm_compute in H. discriminate H.
  - exact (timestamp_with_extension Ex.env_plain (Ex.args_write true false 1)
             world0 w' s H).
Defined.
